(** * nanobot WhatsApp bridge: adapter and relay server

    A shallow embedding of [bridge/src/whatsapp.ts] (class [WhatsAppClient])
    and [bridge/src/server.ts] (class [BridgeServer]).

    Conventions of the embedding:
    - a JavaScript field that may be [undefined] or [null] is an [option];
      truthiness of a string is "present and not empty";
    - the Baileys socket, the peer WebSockets and the timer queue are the
      environment: calls into them are recorded as effects, in program
      order, and what they answer is an input of the model;
    - [console.log], [console.error] and [qrcode.generate] write to the
      terminal only and are left out. *)

From Stdlib Require Import ZArith List String Bool Lia Arith Sorted.
Import ListNotations.
Local Open Scope string_scope.

(** ** JavaScript values *)

Module JS.

(** The values [JSON.parse] can return; [undefined] is [None] of an
    [option Value]. Numbers are not inspected by this code and are kept as
    integers. *)
#[warnings="-register-all"]
Inductive Value :=
| VNull
| VBool (b : bool)
| VNum (n : Z)
| VStr (s : string)
| VArr (l : list Value)
| VObj (props : list (string * Value)).

(** A thrown [Error] object: its constructor name and its message. *)
Record Exn := mkExn { exn_name : string; exn_message : string }.

Definition Error (m : string) : Exn := mkExn "Error" m.
Definition TypeError (m : string) : Exn := mkExn "TypeError" m.
Definition SyntaxError (m : string) : Exn := mkExn "SyntaxError" m.

(** [String(error)], that is [Error.prototype.toString]. *)
Definition String_ (e : Exn) : string :=
  if String.eqb (exn_message e) "" then exn_name e
  else if String.eqb (exn_name e) "" then exn_message e
  else exn_name e ++ ": " ++ exn_message e.

(** Truthiness of an optional string: [undefined], [null] and [''] are falsy. *)
Definition truthy (o : option string) : bool :=
  match o with
  | Some s => negb (String.eqb s "")
  | None => false
  end.

(** [o || ''] on an optional string. *)
Definition or_empty (o : option string) : string :=
  match o with
  | Some s => s
  | None => ""
  end.

(** [s.endsWith(suffix)]. *)
Definition endsWith (s suffix : string) : bool :=
  let n := String.length s in
  let m := String.length suffix in
  if Nat.leb m n then String.eqb (substring (n - m) m s) suffix else false.

(** Own properties of an object in insertion order; the last binding of a
    key is the one [JSON.parse] keeps, the first one found here, so objects
    are kept with distinct keys by their producers. *)
Fixpoint lookup (k : string) (props : list (string * Value)) : option Value :=
  match props with
  | [] => None
  | (k', v) :: rest => if String.eqb k k' then Some v else lookup k rest
  end.

(** [v.k] for one of the keys this program reads ([type], [to], [text]):
    a [TypeError] on [null], the property of an object, [undefined] on every
    other value (booleans, numbers, strings and arrays have no such key). *)
Definition get (v : Value) (k : string) : Exn + option Value :=
  match v with
  | VNull =>
      inl (TypeError ("Cannot read properties of null (reading '" ++ k ++ "')"))
  | VObj props => inr (lookup k props)
  | _ => inr None
  end.

(** [v === lit] for a string literal [lit]. *)
Definition strict_eq_str (v : option Value) (lit : string) : bool :=
  match v with
  | Some (VStr s) => String.eqb s lit
  | _ => false
  end.

(** An object literal as [JSON.stringify] writes it: a property whose value
    is [undefined] is skipped. *)
Definition literal (props : list (string * option Value)) : Value :=
  VObj (flat_map (fun kv => match snd kv with
                            | Some v => [(fst kv, v)]
                            | None => []
                            end) props).

(** Text on a WebSocket, kept symbolic: either the JSON encoding of a value
    or a text that [JSON.parse] rejects with the given message. *)
Inductive Wire :=
| Json (v : Value)
| NotJson (why : string).

Definition JSON_stringify (v : Value) : Wire := Json v.

Definition JSON_parse (data : Wire) : Exn + Value :=
  match data with
  | Json v => inr v
  | NotJson why => inl (SyntaxError why)
  end.

End JS.

(** ** Inbound payloads

    Baileys' [WAMessage], cut down to the fields the adapter reads; of an
    audio part it only reads whether it is there. *)

Record CaptionPart := mkCaption { caption : option string }.
Record TextPart := mkText { text : option string }.
Record AudioPart := mkAudio { ptt : bool }.

Record Message := mkMessage {
  conversation : option string;
  extendedTextMessage : option TextPart;
  imageMessage : option CaptionPart;
  videoMessage : option CaptionPart;
  documentMessage : option CaptionPart;
  audioMessage : option AudioPart
}.

Record MessageKey := mkKey {
  remoteJid : option string;
  fromMe : option bool;
  id : option string;
  remoteJidAlt : option string
}.

Record WAMessage := mkWAMessage {
  key : MessageKey;
  message : option Message;
  messageTimestamp : Z
}.

(** [interface InboundMessage] *)
Record InboundMessage := mkInbound {
  in_id : string;
  in_sender : string;
  in_pn : string;
  in_content : string;
  in_timestamp : Z;
  in_isGroup : bool
}.

(** [part?.caption] and [part?.text] *)
Definition opt_caption (p : option CaptionPart) : option string :=
  match p with Some c => caption c | None => None end.

Definition opt_text (p : option TextPart) : option string :=
  match p with Some t => text t | None => None end.

(** [private extractMessageContent(msg: any): string | null] *)
Definition extractMessageContent (msg : WAMessage) : option string :=
  match message msg with
  | None => None
  | Some m =>
      if JS.truthy (conversation m) then conversation m
      else if JS.truthy (opt_text (extendedTextMessage m)) then
        opt_text (extendedTextMessage m)
      else if JS.truthy (opt_caption (imageMessage m)) then
        Some ("[Image] " ++ JS.or_empty (opt_caption (imageMessage m)))
      else if JS.truthy (opt_caption (videoMessage m)) then
        Some ("[Video] " ++ JS.or_empty (opt_caption (videoMessage m)))
      else if JS.truthy (opt_caption (documentMessage m)) then
        Some ("[Document] " ++ JS.or_empty (opt_caption (documentMessage m)))
      else match audioMessage m with
           | Some _ => Some "[Voice Message]"
           | None => None
           end
  end.

(** The body of the [for (const msg of messages)] loop of the
    [messages.upsert] handler: the [onMessage] argument, or nothing when the
    iteration ends in [continue]. *)
Definition upsert_one (msg : WAMessage) : option InboundMessage :=
  if match fromMe (key msg) with Some b => b | None => false end then None
  else if match remoteJid (key msg) with
          | Some j => String.eqb j "status@broadcast"
          | None => false
          end then None
  else match extractMessageContent msg with
       | None => None
       | Some content =>
           if negb (JS.truthy (Some content)) then None
           else
             let isGroup :=
               match remoteJid (key msg) with
               | Some j => JS.endsWith j "@g.us"
               | None => false
               end in
             Some (mkInbound (JS.or_empty (id (key msg)))
                             (JS.or_empty (remoteJid (key msg)))
                             (JS.or_empty (remoteJidAlt (key msg)))
                             content
                             (messageTimestamp msg)
                             isGroup)
       end.

(** The [messages.upsert] handler: the [onMessage] calls it makes, in order. *)
Definition messages_upsert (messages : list WAMessage) (type : string)
  : list InboundMessage :=
  if negb (String.eqb type "notify") then []
  else flat_map (fun msg => match upsert_one msg with
                            | Some m => [m]
                            | None => []
                            end) messages.

(** The precedence of the specification, in its own words: the content is
    the first of these that applies. *)
Definition present (o : option string) : option string :=
  match o with
  | Some s => if String.eqb s "" then None else Some s
  | None => None
  end.

Definition tagged (tag : string) (o : option string) : option string :=
  match present o with
  | Some c => Some (tag ++ " " ++ c)
  | None => None
  end.

Fixpoint first_applicable (candidates : list (option string)) : option string :=
  match candidates with
  | [] => None
  | Some s :: _ => Some s
  | None :: rest => first_applicable rest
  end.

Definition normalize_spec (payload : option Message) : option string :=
  match payload with
  | None => None
  | Some m =>
      first_applicable
        [ present (conversation m);
          present (opt_text (extendedTextMessage m));
          tagged "[Image]" (opt_caption (imageMessage m));
          tagged "[Video]" (opt_caption (videoMessage m));
          tagged "[Document]" (opt_caption (documentMessage m));
          match audioMessage m with
          | Some _ => Some "[Voice Message]"
          | None => None
          end ]%list
  end.

(** ** The adapter: [class WhatsAppClient] *)

Module WhatsAppClient.

Local Open Scope list_scope.

Definition Sock := nat.

(** The two mutable fields of the class ([options] never changes). *)
Record t := mk { sock : option Sock; reconnecting : bool }.

(** [new WhatsAppClient(options)] *)
Definition new : t := mk None false.

(** What the adapter does to the outside: the three callbacks of [options],
    the calls into Baileys, and the one [setTimeout] of the class.
    [sock_sendMessage s to text] is [sock.sendMessage(to, { text })] on
    socket [s]; [connect_called] is a call of [connect()]. *)
Inductive Effect :=
| onQR (qr : string)
| onStatus (status : string)
| onMessage (m : InboundMessage)
| setTimeout (delay : Z)
| connect_called
| makeWASocket (s : Sock)
| sock_sendMessage (s : Sock) (to : option JS.Value) (text : option JS.Value)
| sock_end (s : Sock).

(** The argument of the [connection.update] handler:
    [connection], [(lastDisconnect?.error as Boom)?.output?.statusCode], [qr]. *)
Record ConnectionUpdate := mkUpdate {
  connection : option string;
  statusCode : option Z;
  qr : option string
}.

(** What [await this.sock.sendMessage(to, { text })] does on a given socket:
    [None] when Baileys accepts the message, [Some e] when it throws. *)
Definition Baileys := Sock -> option JS.Value -> option JS.Value -> option JS.Exn.

Definition is_connection (u : ConnectionUpdate) (lit : string) : bool :=
  match connection u with
  | Some c => String.eqb c lit
  | None => false
  end.

(** The [if (qr) { ... }] block of the [connection.update] handler. *)
Definition on_qr (u : ConnectionUpdate) : list Effect :=
  if JS.truthy (qr u) then [onQR (JS.or_empty (qr u))] else [].

(** [async sendMessage(to, text)] *)
Definition sendMessage (lib : Baileys) (this : t) (to text : option JS.Value)
  : (JS.Exn + unit) * list Effect :=
  match sock this with
  | None => (inl (JS.Error "Not connected"), [])
  | Some s =>
      (match lib s to text with
       | Some e => inl e
       | None => inr tt
       end,
       [sock_sendMessage s to text])
  end.

(** [async disconnect()] *)
Definition disconnect (this : t) : t * list Effect :=
  match sock this with
  | Some s => (mk None (reconnecting this), [sock_end s])
  | None => (this, [])
  end.

(** The closure given to [setTimeout]. *)
Definition reconnect_timeout (this : t) : t * list Effect :=
  (mk (sock this) false, [connect_called]).

Section Lifecycle.

(** [DisconnectReason.loggedOut], a constant of Baileys. *)
Variable loggedOut : Z.

(** [statusCode !== DisconnectReason.loggedOut] *)
Definition shouldReconnect (code : option Z) : bool :=
  match code with
  | Some c => negb (Z.eqb c loggedOut)
  | None => true
  end.

(** The [connection.update] handler. *)
Definition connection_update (this : t) (u : ConnectionUpdate)
  : t * list Effect :=
  if is_connection u "close" then
    if shouldReconnect (statusCode u) && negb (reconnecting this) then
      (mk (sock this) true,
       on_qr u ++ [onStatus "disconnected"; setTimeout 5000])
    else (this, on_qr u ++ [onStatus "disconnected"])
  else if is_connection u "open" then
    (this, on_qr u ++ [onStatus "connected"])
  else (this, on_qr u).

(** *** The adapter in its environment

    The event loop around one adapter object: the clock, the queue of
    pending reconnect closures (by due time), the [connect()] calls that are
    suspended at an [await] before [makeWASocket], the number of sockets
    made so far, and everything the adapter did, oldest first. *)
Record World := mkWorld {
  client : t;
  now : Z;
  timers : list Z;
  connects : nat;
  sockets : nat;
  log : list Effect
}.

Definition init : World := mkWorld new 0 [] 0 0 [].

Inductive Event :=
| Call_connect
| Resume_connect (ok : bool)
| Call_sendMessage (lib : Baileys) (to text : option JS.Value)
| Call_disconnect
| Ev_connection_update (u : ConnectionUpdate)
| Ev_messages_upsert (messages : list WAMessage) (type : string)
| Timer_fire
| Tick (d : Z).

(** Due times of the timers an effect list sets. *)
Definition scheduled (t0 : Z) (effs : list Effect) : list Z :=
  flat_map (fun e => match e with
                     | setTimeout d => [(t0 + d)%Z]
                     | _ => []
                     end) effs.

(** One turn of the event loop; [None] when the event cannot happen in this
    state (no suspended [connect()], no socket whose handlers could run, no
    timer due, time running backwards). [Resume_connect false] is a
    [connect()] call that rejects before [makeWASocket]; the adapter does
    nothing about it, and what the caller or the runtime does with the
    rejection is not part of this model. *)
Definition fire (w : World) (e : Event) : option World :=
  match e with
  | Call_connect =>
      Some (mkWorld (client w) (now w) (timers w) (S (connects w)) (sockets w)
                    (log w ++ [connect_called]))
  | Resume_connect ok =>
      match connects w with
      | O => None
      | S n =>
          if ok then
            Some (mkWorld (mk (Some (sockets w)) (reconnecting (client w)))
                          (now w) (timers w) n (S (sockets w))
                          (log w ++ [makeWASocket (sockets w)]))
          else Some (mkWorld (client w) (now w) (timers w) n (sockets w) (log w))
      end
  | Call_sendMessage lib to text =>
      let '(_, effs) := sendMessage lib (client w) to text in
      Some (mkWorld (client w) (now w) (timers w) (connects w) (sockets w)
                    (log w ++ effs))
  | Call_disconnect =>
      let '(c, effs) := disconnect (client w) in
      Some (mkWorld c (now w) (timers w) (connects w) (sockets w)
                    (log w ++ effs))
  | Ev_connection_update u =>
      match sockets w with
      | O => None
      | S _ =>
          let '(c, effs) := connection_update (client w) u in
          Some (mkWorld c (now w) (timers w ++ scheduled (now w) effs)
                        (connects w) (sockets w) (log w ++ effs))
      end
  | Ev_messages_upsert messages type =>
      match sockets w with
      | O => None
      | S _ =>
          Some (mkWorld (client w) (now w) (timers w) (connects w) (sockets w)
                        (log w ++ map onMessage (messages_upsert messages type)))
      end
  | Timer_fire =>
      match timers w with
      | due :: rest =>
          if Z.leb due (now w) then
            let '(c, effs) := reconnect_timeout (client w) in
            Some (mkWorld c (now w) rest (S (connects w)) (sockets w)
                          (log w ++ effs))
          else None
      | [] => None
      end
  | Tick d =>
      if Z.leb 0 d then
        Some (mkWorld (client w) (now w + d)%Z (timers w) (connects w)
                      (sockets w) (log w))
      else None
  end.

Fixpoint run (w : World) (evs : list Event) : option World :=
  match evs with
  | [] => Some w
  | e :: rest =>
      match fire w e with
      | Some w' => run w' rest
      | None => None
      end
  end.

Definition reachable (w : World) : Prop := exists evs, run init evs = Some w.

(** The single-flight invariant: a reconnect closure is pending exactly
    while [reconnecting] is set, there is never more than one, and it is
    due at most five seconds from now. *)
Definition single_flight (w : World) : Prop :=
  List.length (timers w) = (if reconnecting (client w) then 1 else 0)%nat
  /\ Forall (fun due => (due <= now w + 5000)%Z) (timers w).

(** Events in which nothing but the clock and the timer queue acts. *)
Definition passive (e : Event) : bool :=
  match e with
  | Timer_fire | Tick _ => true
  | _ => false
  end.

(** The last status the adapter reported through [onStatus]. *)
Fixpoint last_status (acc : option string) (l : list Effect) : option string :=
  match l with
  | [] => acc
  | onStatus s :: rest => last_status (Some s) rest
  | _ :: rest => last_status acc rest
  end.

End Lifecycle.

End WhatsAppClient.

(** ** The relay: [class BridgeServer] *)

Module BridgeServer.

Local Open Scope list_scope.

Definition WebSocket := nat.
Definition WebSocketServer := Z.

(** [readyState] of a peer socket. *)
Inductive ReadyState := CONNECTING | OPEN | CLOSING | CLOSED.

Definition is_OPEN (r : ReadyState) : bool :=
  match r with OPEN => true | _ => false end.

(** The fields of the class. [clients] is a [Set<WebSocket>]: iteration is in
    insertion order and an element occurs once. [wa] holds the adapter
    object. *)
Record t := mk {
  wss : option WebSocketServer;
  wa : option WhatsAppClient.t;
  clients : list WebSocket
}.

(** [new BridgeServer(port, authDir)] *)
Definition new : t := mk None None [].

(** What the server does to the outside, besides what its adapter does.
    [wss_open port] is [new WebSocketServer({ port })], which starts to
    listen. *)
Inductive Effect :=
| stringify (v : JS.Value)
| ws_send (ws : WebSocket) (data : JS.Wire)
| ws_close (ws : WebSocket)
| wss_open (port : WebSocketServer)
| wss_close
| adapter (e : WhatsAppClient.Effect).

(** *** Handlers as computations

    A handler reads and writes the fields, performs effects in order, and
    returns or throws. *)
Definition M (A : Type) : Type := t -> (JS.Exn + A) * t * list Effect.

Definition ret {A} (a : A) : M A := fun st => (inr a, st, []).

Definition throw {A} (e : JS.Exn) : M A := fun st => (inl e, st, []).

Definition bind {A B} (c : M A) (k : A -> M B) : M B :=
  fun st =>
    match c st with
    | (inl e, st1, tr1) => (inl e, st1, tr1)
    | (inr a, st1, tr1) =>
        match k a st1 with
        | (r, st2, tr2) => (r, st2, tr1 ++ tr2)
        end
    end.

(** [try { body } catch (error) { handler }] *)
Definition try_catch {A} (body : M A) (handler : JS.Exn -> M A) : M A :=
  fun st =>
    match body st with
    | (inl e, st1, tr1) =>
        match handler e st1 with
        | (r, st2, tr2) => (r, st2, tr1 ++ tr2)
        end
    | ok => ok
    end.

Definition this : M t := fun st => (inr st, st, []).
Definition assign (st' : t) : M unit := fun _ => (inr tt, st', []).
Definition emit (tr : list Effect) : M unit := fun st => (inr tt, st, tr).

Definition lift {A} (r : JS.Exn + A) : M A :=
  match r with
  | inl e => throw e
  | inr a => ret a
  end.

Declare Scope js_scope.
Delimit Scope js_scope with js.
Notation "x <- c ;; k" := (bind c (fun x => k))
  (at level 61, c at next level, right associativity) : js_scope.
Notation "c ;; k" := (bind c (fun _ => k))
  (at level 61, right associativity) : js_scope.
Local Open Scope js_scope.

(** [for (const x of xs) body(x)] *)
Fixpoint for_of {A} (xs : list A) (body : A -> M unit) : M unit :=
  match xs with
  | [] => ret tt
  | x :: rest => body x ;; for_of rest body
  end.

(** [Set.prototype.add] and [Set.prototype.delete] on the insertion-ordered
    representation. *)
Definition set_add (ws : WebSocket) (s : list WebSocket) : list WebSocket :=
  if existsb (Nat.eqb ws) s then s else s ++ [ws].

Definition set_delete (ws : WebSocket) (s : list WebSocket) : list WebSocket :=
  filter (fun x => negb (Nat.eqb ws x)) s.

(** [{ type: 'message', ...msg }] *)
Definition message_envelope (m : InboundMessage) : JS.Value :=
  JS.VObj [("type", JS.VStr "message");
           ("id", JS.VStr (in_id m));
           ("sender", JS.VStr (in_sender m));
           ("pn", JS.VStr (in_pn m));
           ("content", JS.VStr (in_content m));
           ("timestamp", JS.VNum (in_timestamp m));
           ("isGroup", JS.VBool (in_isGroup m))].

Section Handlers.

(** The environment of a handler run: the state of each peer socket and
    the answer of Baileys to a send. *)
Variable readyState : WebSocket -> ReadyState.
Variable lib : WhatsAppClient.Baileys.

(** [private async handleCommand(cmd: SendCommand)] *)
Definition handleCommand (cmd : JS.Value) : M unit :=
  type <- lift (JS.get cmd "type") ;;
  st <- this ;;
  match JS.strict_eq_str type "send", wa st with
  | true, Some client =>
      to <- lift (JS.get cmd "to") ;;
      text <- lift (JS.get cmd "text") ;;
      let '(r, effs) := WhatsAppClient.sendMessage lib client to text in
      emit (map adapter effs) ;;
      lift r
  | _, _ => ret tt
  end.

(** The [ws.on('message', async (data) => ...)] handler of peer [ws]. *)
Definition ws_on_message (ws : WebSocket) (data : JS.Wire) : M unit :=
  try_catch
    (cmd <- lift (JS.JSON_parse data) ;;
     handleCommand cmd ;;
     to <- lift (JS.get cmd "to") ;;
     let reply := JS.literal [("type", Some (JS.VStr "sent")); ("to", to)] in
     emit [stringify reply] ;;
     emit [ws_send ws (JS.JSON_stringify reply)])
    (fun error =>
       let reply :=
         JS.literal [("type", Some (JS.VStr "error"));
                     ("error", Some (JS.VStr (JS.String_ error)))] in
       emit [stringify reply] ;;
       emit [ws_send ws (JS.JSON_stringify reply)]).

(** The [wss.on('connection', (ws) => ...)] handler, and the [close] and
    [error] handlers of a peer. *)
Definition wss_on_connection (ws : WebSocket) : M unit :=
  st <- this ;;
  assign (mk (wss st) (wa st) (set_add ws (clients st))).

Definition ws_on_close (ws : WebSocket) : M unit :=
  st <- this ;;
  assign (mk (wss st) (wa st) (set_delete ws (clients st))).

Definition ws_on_error (ws : WebSocket) : M unit := ws_on_close ws.

(** [private broadcast(msg: BridgeMessage): void] *)
Definition broadcast (msg : JS.Value) : M unit :=
  emit [stringify msg] ;;
  let data := JS.JSON_stringify msg in
  st <- this ;;
  for_of (clients st)
         (fun client =>
            if is_OPEN (readyState client) then emit [ws_send client data]
            else ret tt).

(** The three callbacks [start()] hands to the adapter. *)
Definition callback (e : WhatsAppClient.Effect) : M unit :=
  match e with
  | WhatsAppClient.onMessage m => broadcast (message_envelope m)
  | WhatsAppClient.onQR qr =>
      broadcast (JS.VObj [("type", JS.VStr "qr"); ("qr", JS.VStr qr)])
  | WhatsAppClient.onStatus status =>
      broadcast (JS.VObj [("type", JS.VStr "status"); ("status", JS.VStr status)])
  | _ => ret tt
  end.

(** [async start()], up to the call of [this.wa.connect()]: the listener is
    opened and kept in [wss], the adapter is made and kept in [wa], then its
    [connect()] is called. *)
Definition start (port : Z) : M unit :=
  emit [wss_open port] ;;
  st <- this ;;
  assign (mk (Some port) (wa st) (clients st)) ;;
  st <- this ;;
  assign (mk (wss st) (Some WhatsAppClient.new) (clients st)) ;;
  emit [adapter WhatsAppClient.connect_called].

(** [async stop()] *)
Definition stop : M unit :=
  st <- this ;;
  for_of (clients st) (fun client => emit [ws_close client]) ;;
  assign (mk (wss st) (wa st) []) ;;
  st <- this ;;
  match wss st with
  | Some _ => emit [wss_close] ;; assign (mk None (wa st) (clients st))
  | None => ret tt
  end ;;
  st <- this ;;
  match wa st with
  | Some client =>
      let '(client', effs) := WhatsAppClient.disconnect client in
      emit (map adapter effs) ;;
      assign (mk (wss st) (Some client') (clients st)) ;;
      st <- this ;;
      assign (mk (wss st) None (clients st))
  | None => ret tt
  end.

End Handlers.

(** Classifiers of effects, for counting. *)
Definition is_send_to (ws : WebSocket) (e : Effect) : bool :=
  match e with ws_send ws' _ => Nat.eqb ws ws' | _ => false end.

Definition is_send (e : Effect) : bool :=
  match e with ws_send _ _ => true | _ => false end.

Definition is_stringify (e : Effect) : bool :=
  match e with stringify _ => true | _ => false end.

Definition count (p : Effect -> bool) (tr : list Effect) : nat :=
  List.length (filter p tr).

(** The two replies of the command protocol, [{ type: 'sent', to }] and
    [{ type: 'error', error }], and the effects of
    [ws.send(JSON.stringify(reply))]. *)
Definition sent (to : option JS.Value) : JS.Value :=
  JS.literal [("type", Some (JS.VStr "sent")); ("to", to)].

Definition error (message : string) : JS.Value :=
  JS.literal [("type", Some (JS.VStr "error")); ("error", Some (JS.VStr message))].

Definition replies (ws : WebSocket) (reply : JS.Value) : list Effect :=
  [stringify reply; ws_send ws (JS.JSON_stringify reply)].

(** The step of [stop()] an effect belongs to: closing a peer, closing the
    listener, disconnecting the adapter. *)
Definition stop_phase (e : Effect) : nat :=
  match e with
  | ws_close _ => 0
  | wss_close => 1
  | adapter _ => 2
  | _ => 3
  end.

(** The teardown of the specification: close every peer, then stop the
    listener, then disconnect the adapter. *)
Definition stop_trace (st : t) : list Effect :=
  map ws_close (clients st)
  ++ match wss st with Some _ => [wss_close] | None => [] end
  ++ match wa st with
     | Some client => map adapter (snd (WhatsAppClient.disconnect client))
     | None => []
     end.

(** [cmd.to] of a parsed command that is not [null]. *)
Definition to_of (cmd : JS.Value) : option JS.Value :=
  match JS.get cmd "to" with
  | inr v => v
  | inl _ => None
  end.

Definition type_of (cmd : JS.Value) : option JS.Value :=
  match JS.get cmd "type" with
  | inr v => v
  | inl _ => None
  end.

Definition text_of (cmd : JS.Value) : option JS.Value :=
  match JS.get cmd "text" with
  | inr v => v
  | inl _ => None
  end.

End BridgeServer.

(** ** The adapter's record, read back *)

Module Journal.

Import WhatsAppClient.
Local Open Scope list_scope.

(** The callbacks a peer can come to see: QR challenges and statuses. *)
Definition is_report (e : Effect) : bool :=
  match e with
  | onQR _ | onStatus _ => true
  | _ => false
  end.

Definition is_library_send (e : Effect) : bool :=
  match e with
  | sock_sendMessage _ _ _ => true
  | _ => false
  end.

Definition is_connect_call (e : Effect) : bool :=
  match e with
  | connect_called => true
  | _ => false
  end.

(** The sockets made, in the order of their making. *)
Definition socket_ids (l : list Effect) : list Sock :=
  flat_map (fun e => match e with
                     | makeWASocket s => [s]
                     | _ => []
                     end) l.

(** What one [connection.update] reports through [onQR] and [onStatus]. *)
Definition reports (u : ConnectionUpdate) : list Effect :=
  on_qr u
  ++ (if is_connection u "close" then [onStatus "disconnected"]
      else if is_connection u "open" then [onStatus "connected"]
      else []).

(** [Resume_connect true]: a [connect()] call gets as far as [makeWASocket]. *)
Definition completes_connect (e : Event) : bool :=
  match e with
  | Resume_connect true => true
  | _ => false
  end.

(** What the record of effects says about sockets and [connect()] calls:
    the sockets made are numbered in order, the adapter holds one of them if
    any, and no socket is made without a [connect()] call. *)
Definition accounted (w : World) : Prop :=
  socket_ids (log w) = seq 0 (sockets w)
  /\ (forall s, sock (client w) = Some s -> (s < sockets w)%nat)
  /\ (sockets w + connects w
      <= List.length (filter is_connect_call (log w)))%nat.

End Journal.

(** ** The server's handlers, as one type *)

Module Wiring.

Import BridgeServer.
Local Open Scope list_scope.

(** Everything that can run on a server object: the listener's [connection]
    handler, the three handlers of a peer socket, the adapter's callbacks,
    and the two public methods. *)
Inductive Handler :=
| On_connection (ws : WebSocket)
| On_message (ws : WebSocket) (data : JS.Wire)
| On_close (ws : WebSocket)
| On_error (ws : WebSocket)
| On_callback (e : WhatsAppClient.Effect)
| Start (port : Z)
| Stop.

Definition handle (readyState : WebSocket -> ReadyState)
           (lib : WhatsAppClient.Baileys) (h : Handler) : M unit :=
  match h with
  | On_connection ws => wss_on_connection ws
  | On_message ws data => ws_on_message lib ws data
  | On_close ws => ws_on_close ws
  | On_error ws => ws_on_error ws
  | On_callback e => callback readyState e
  | Start port => start port
  | Stop => stop
  end.

(** The fields and the effects a handler run ends with. *)
Definition fields_after {A} (r : (JS.Exn + A) * t * list Effect) : t :=
  snd (fst r).

Definition effects_of {A} (r : (JS.Exn + A) * t * list Effect) : list Effect :=
  snd r.

(** The object a callback hands to [broadcast]: [{ type: 'message', ...msg }],
    [{ type: 'qr', qr }], [{ type: 'status', status }]. *)
Definition envelope (e : WhatsAppClient.Effect) : option JS.Value :=
  match e with
  | WhatsAppClient.onMessage m => Some (message_envelope m)
  | WhatsAppClient.onQR qr =>
      Some (JS.VObj [("type", JS.VStr "qr"); ("qr", JS.VStr qr)])
  | WhatsAppClient.onStatus status =>
      Some (JS.VObj [("type", JS.VStr "status"); ("status", JS.VStr status)])
  | _ => None
  end.

Definition envelopes (effs : list WhatsAppClient.Effect) : list JS.Value :=
  flat_map (fun e => match envelope e with
                     | Some v => [v]
                     | None => []
                     end) effs.

(** The callbacks one adapter handler makes, run one after the other. *)
Definition relay (readyState : WebSocket -> ReadyState)
           (effs : list WhatsAppClient.Effect) : M unit :=
  for_of effs (callback readyState).

Definition is_adapter_call (e : Effect) : bool :=
  match e with adapter _ => true | _ => false end.

(** Handlers run one after the other, each on the fields the one before left
    and with the peer sockets in the state they are in at that moment; the
    result is the final fields and all effects in order. *)
Fixpoint serve (lib : WhatsAppClient.Baileys)
         (hs : list ((WebSocket -> ReadyState) * Handler)) (st : t)
  : t * list Effect :=
  match hs with
  | [] => (st, [])
  | (readyState, h) :: rest =>
      let r := handle readyState lib h st in
      let '(st', tr) := serve lib rest (fields_after r) in
      (st', effects_of r ++ tr)
  end.

End Wiring.

(** * Properties *)

(** ** Message normalization *)

Section Normalization.

Local Open Scope list_scope.

Lemma truthy_present (o : option string) :
  JS.truthy o = true -> present o = o.
Proof.
  destruct o as [s|]; simpl; [|discriminate].
  destruct (String.eqb s ""); simpl; [discriminate|reflexivity].
Qed.

Lemma falsy_present (o : option string) :
  JS.truthy o = false -> present o = None.
Proof.
  destruct o as [s|]; simpl; [|reflexivity].
  destruct (String.eqb s ""); simpl; [reflexivity|discriminate].
Qed.

Lemma truthy_tagged (tag : string) (o : option string) :
  JS.truthy o = true ->
  tagged tag o = Some (String.append tag (String.append " " (JS.or_empty o))).
Proof.
  intros H. unfold tagged. rewrite (truthy_present o H).
  destruct o; [reflexivity|discriminate].
Qed.

Lemma falsy_tagged (tag : string) (o : option string) :
  JS.truthy o = false -> tagged tag o = None.
Proof. intros H. unfold tagged. now rewrite (falsy_present o H). Qed.

(** [extractMessageContent] computes the precedence of the specification. *)
Lemma extract_refines_spec (msg : WAMessage) :
  extractMessageContent msg = normalize_spec (message msg).
Proof.
  unfold extractMessageContent, normalize_spec.
  destruct (message msg) as [m|]; [|reflexivity].
  cbn [first_applicable].
  destruct (JS.truthy (conversation m)) eqn:H1.
  { rewrite (truthy_present _ H1).
    destruct (conversation m); [reflexivity|discriminate]. }
  rewrite (falsy_present _ H1).
  destruct (JS.truthy (opt_text (extendedTextMessage m))) eqn:H2.
  { rewrite (truthy_present _ H2).
    destruct (opt_text (extendedTextMessage m)); [reflexivity|discriminate]. }
  rewrite (falsy_present _ H2).
  destruct (JS.truthy (opt_caption (imageMessage m))) eqn:H3.
  { now rewrite (truthy_tagged _ _ H3). }
  rewrite (falsy_tagged _ _ H3).
  destruct (JS.truthy (opt_caption (videoMessage m))) eqn:H4.
  { now rewrite (truthy_tagged _ _ H4). }
  rewrite (falsy_tagged _ _ H4).
  destruct (JS.truthy (opt_caption (documentMessage m))) eqn:H5.
  { now rewrite (truthy_tagged _ _ H5). }
  rewrite (falsy_tagged _ _ H5).
  destruct (audioMessage m); reflexivity.
Qed.

(** A payload without content ends its loop iteration in [continue]. *)
Lemma no_content_no_event (msg : WAMessage) :
  extractMessageContent msg = None -> upsert_one msg = None.
Proof.
  intros H. unfold upsert_one. rewrite H.
  destruct (fromMe (key msg)) as [[|]|];
    destruct (remoteJid (key msg)) as [j|];
    try destruct (String.eqb j "status@broadcast"); reflexivity.
Qed.

Lemma event_carries_content (msg : WAMessage) (ev : InboundMessage) :
  upsert_one msg = Some ev -> extractMessageContent msg = Some (in_content ev).
Proof.
  unfold upsert_one.
  destruct (match fromMe (key msg) with Some b => b | None => false end);
    [discriminate|].
  destruct (match remoteJid (key msg) with
            | Some j => String.eqb j "status@broadcast"
            | None => false
            end); [discriminate|].
  destruct (extractMessageContent msg) as [c|]; [|discriminate].
  destruct (negb (JS.truthy (Some c))); [discriminate|].
  intros H. injection H as <-. reflexivity.
Qed.

Lemma upsert_single_none (msg : WAMessage) (type : string) :
  upsert_one msg = None -> messages_upsert [msg] type = [].
Proof.
  intros H. unfold messages_upsert.
  destruct (negb (String.eqb type "notify")); [reflexivity|].
  simpl. now rewrite H.
Qed.

End Normalization.

(** C3. Normalization follows the fixed precedence plain text, quoted-reply
    text, "[Image] caption", "[Video] caption", "[Document] caption", the
    literal "[Voice Message]", else nothing, and a payload that yields
    nothing produces no inbound-message event. In particular a captioned
    image with no text of higher precedence yields "[Image] caption", and a
    voice note with no other field yields "[Voice Message]". *)
Theorem C3_normalization_precedence (msg : WAMessage) :
  extractMessageContent msg = normalize_spec (message msg)
  /\ (extractMessageContent msg = None ->
      upsert_one msg = None /\ forall type, messages_upsert [msg] type = []%list)
  /\ (forall ev, upsert_one msg = Some ev ->
      normalize_spec (message msg) = Some (in_content ev))
  /\ (forall m c,
        message msg = Some m ->
        present (conversation m) = None ->
        present (opt_text (extendedTextMessage m)) = None ->
        opt_caption (imageMessage m) = Some c -> c <> "" ->
        extractMessageContent msg = Some ("[Image] " ++ c))
  /\ (forall a,
        message msg = Some (mkMessage None None None None None (Some a)) ->
        extractMessageContent msg = Some "[Voice Message]").
Proof.
  split; [apply extract_refines_spec|].
  split.
  { intros H. split.
    - now apply no_content_no_event.
    - intros type. apply upsert_single_none. now apply no_content_no_event. }
  split.
  { intros ev H. rewrite <- extract_refines_spec.
    now apply event_carries_content. }
  split.
  { intros m c Hm H1 H2 H3 Hc.
    rewrite extract_refines_spec, Hm. cbn [normalize_spec first_applicable].
    rewrite H1, H2, H3. unfold tagged, present.
    destruct (String.eqb_spec c ""); [contradiction|reflexivity]. }
  intros a Hm. rewrite extract_refines_spec, Hm. reflexivity.
Qed.

(** C3, at a captioned image and at a bare voice note. *)
Lemma C3_normalization_precedence_witness :
  extractMessageContent
    (mkWAMessage (mkKey (Some "1234@s.whatsapp.net") None (Some "A1") None)
       (Some (mkMessage None None (Some (mkCaption (Some "cat"))) None None None))
       1700000000)
  = Some "[Image] cat"
  /\ extractMessageContent
       (mkWAMessage (mkKey (Some "1234@s.whatsapp.net") None (Some "A2") None)
          (Some (mkMessage None None None None None (Some (mkAudio true))))
          1700000001)
     = Some "[Voice Message]".
Proof.
  split.
  - refine (proj1 (proj2 (proj2 (proj2
      (C3_normalization_precedence
         (mkWAMessage (mkKey (Some "1234@s.whatsapp.net") None (Some "A1") None)
            (Some (mkMessage None None (Some (mkCaption (Some "cat")))
                             None None None))
            1700000000))))) _ "cat" eq_refl eq_refl eq_refl eq_refl _).
    discriminate.
  - exact (proj2 (proj2 (proj2 (proj2
      (C3_normalization_precedence
         (mkWAMessage (mkKey (Some "1234@s.whatsapp.net") None (Some "A2") None)
            (Some (mkMessage None None None None None (Some (mkAudio true))))
            1700000001))))) (mkAudio true) eq_refl).
Defined.

(** C10. A payload whose only parts are image, video or document parts with
    an absent or empty caption (no plain text, no quoted-reply text, no audio
    part) has no content: normalization returns nothing and the handler makes
    no [onMessage] call for it. *)
Theorem C10_captionless_media_dropped (msg : WAMessage) (m : Message) :
  message msg = Some m ->
  JS.truthy (conversation m) = false ->
  JS.truthy (opt_text (extendedTextMessage m)) = false ->
  audioMessage m = None ->
  JS.truthy (opt_caption (imageMessage m)) = false ->
  JS.truthy (opt_caption (videoMessage m)) = false ->
  JS.truthy (opt_caption (documentMessage m)) = false ->
  extractMessageContent msg = None
  /\ upsert_one msg = None
  /\ forall messages type,
       messages_upsert (msg :: messages) type = messages_upsert messages type.
Proof.
  intros Hm H1 H2 Ha H3 H4 H5.
  assert (He : extractMessageContent msg = None).
  { unfold extractMessageContent. now rewrite Hm, H1, H2, H3, H4, H5, Ha. }
  split; [exact He|].
  split; [now apply no_content_no_event|].
  intros messages type. unfold messages_upsert.
  destruct (negb (String.eqb type "notify")); [reflexivity|].
  simpl. now rewrite (no_content_no_event msg He).
Qed.

(** C10, at an image without caption, a video with the empty caption and a
    document without caption. *)
Lemma C10_captionless_media_dropped_witness :
  extractMessageContent
    (mkWAMessage (mkKey (Some "1234@s.whatsapp.net") (Some false) (Some "B1") None)
       (Some (mkMessage None None (Some (mkCaption None))
                        (Some (mkCaption (Some ""))) (Some (mkCaption None)) None))
       1700000002)
  = None
  /\ messages_upsert
       [mkWAMessage (mkKey (Some "1234@s.whatsapp.net") (Some false) (Some "B1") None)
          (Some (mkMessage None None (Some (mkCaption None))
                           (Some (mkCaption (Some ""))) (Some (mkCaption None)) None))
          1700000002]%list
       "notify"
     = []%list.
Proof.
  pose proof (C10_captionless_media_dropped
    (mkWAMessage (mkKey (Some "1234@s.whatsapp.net") (Some false) (Some "B1") None)
       (Some (mkMessage None None (Some (mkCaption None))
                        (Some (mkCaption (Some ""))) (Some (mkCaption None)) None))
       1700000002)
    (mkMessage None None (Some (mkCaption None))
               (Some (mkCaption (Some ""))) (Some (mkCaption None)) None)
    eq_refl eq_refl eq_refl eq_refl eq_refl eq_refl eq_refl) as [H1 [_ H3]].
  split; [exact H1|].
  exact (H3 []%list "notify").
Defined.

(** ** Messages the handler skips *)

Lemma upsert_one_skipped (msg : WAMessage) :
  fromMe (key msg) = Some true \/ remoteJid (key msg) = Some "status@broadcast" ->
  upsert_one msg = None.
Proof.
  intros [H|H]; unfold upsert_one; rewrite H; [reflexivity|].
  simpl. destruct (fromMe (key msg)) as [[|]|]; reflexivity.
Qed.

(** C7. A message sent by the account itself ([fromMe]) or coming from
    [status@broadcast] never reaches [onMessage], whatever its payload: the
    handler behaves as if the message were not in the batch, and the adapter's
    record of effects does not grow. *)
Theorem C7_self_and_status_dropped (msg : WAMessage) :
  fromMe (key msg) = Some true \/ remoteJid (key msg) = Some "status@broadcast" ->
  upsert_one msg = None
  /\ (forall before after type,
        messages_upsert (before ++ msg :: after) type
        = messages_upsert (before ++ after) type)
  /\ (forall loggedOut w type w',
        WhatsAppClient.fire loggedOut w
          (WhatsAppClient.Ev_messages_upsert [msg] type) = Some w' ->
        WhatsAppClient.log w' = WhatsAppClient.log w)%list.
Proof.
  intros H. pose proof (upsert_one_skipped msg H) as Hs.
  split; [exact Hs|]. split.
  - intros before after type. unfold messages_upsert.
    destruct (negb (String.eqb type "notify")); [reflexivity|].
    rewrite !flat_map_app. simpl. now rewrite Hs.
  - intros loggedOut w type w'. simpl.
    destruct (WhatsAppClient.sockets w); [discriminate|].
    intros E. injection E as <-. simpl.
    unfold messages_upsert.
    destruct (negb (String.eqb type "notify")); simpl;
      [apply app_nil_r|]. rewrite Hs. simpl. apply app_nil_r.
Qed.

(** C7, at a self-sent text message and at a status broadcast. *)
Lemma C7_self_and_status_dropped_witness :
  upsert_one
    (mkWAMessage (mkKey (Some "1234@s.whatsapp.net") (Some true) (Some "C1") None)
       (Some (mkMessage (Some "hello") None None None None None)) 1700000003)
  = None
  /\ upsert_one
       (mkWAMessage (mkKey (Some "status@broadcast") (Some false) (Some "C2") None)
          (Some (mkMessage (Some "story") None None None None None)) 1700000004)
     = None.
Proof.
  split.
  - exact (proj1 (C7_self_and_status_dropped
      (mkWAMessage (mkKey (Some "1234@s.whatsapp.net") (Some true) (Some "C1") None)
         (Some (mkMessage (Some "hello") None None None None None)) 1700000003)
      (or_introl eq_refl))).
  - exact (proj1 (C7_self_and_status_dropped
      (mkWAMessage (mkKey (Some "status@broadcast") (Some false) (Some "C2") None)
         (Some (mkMessage (Some "story") None None None None None)) 1700000004)
      (or_intror eq_refl))).
Defined.

(** ** Broadcast *)

Section Broadcast.

Import BridgeServer.
Local Open Scope list_scope.

Lemma for_of_emit {A} (p : A -> bool) (f : A -> Effect) (xs : list A) (st : t) :
  for_of xs (fun x => if p x then emit [f x] else ret tt) st
  = (inr tt, st, map f (filter p xs)).
Proof.
  induction xs as [|x xs IH]; [reflexivity|].
  cbn [for_of filter]. unfold bind.
  destruct (p x); cbn [emit ret]; rewrite IH; reflexivity.
Qed.

Lemma broadcast_trace (readyState : WebSocket -> ReadyState)
      (msg : JS.Value) (st : t) :
  broadcast readyState msg st
  = (inr tt, st,
     stringify msg
       :: map (fun c => ws_send c (JS.JSON_stringify msg))
              (filter (fun c => is_OPEN (readyState c)) (clients st))).
Proof.
  unfold broadcast, bind, emit, this.
  rewrite (for_of_emit (fun c => is_OPEN (readyState c))
                       (fun c => ws_send c (JS.JSON_stringify msg))).
  reflexivity.
Qed.

Lemma count_sends_map (p : Effect -> bool) (d : JS.Wire) (l : list WebSocket) :
  count p (map (fun c => ws_send c d) l)
  = List.length (filter (fun c => p (ws_send c d)) l).
Proof.
  unfold count. induction l as [|x l IH]; [reflexivity|].
  simpl. destruct (p (ws_send x d)); simpl; now rewrite IH.
Qed.

Lemma filter_eqb_absent (c : WebSocket) (l : list WebSocket) :
  ~ In c l -> filter (Nat.eqb c) l = [].
Proof.
  induction l as [|x l IH]; [reflexivity|].
  intros H. simpl. destruct (Nat.eqb_spec c x) as [->|_].
  - exfalso. apply H. now left.
  - apply IH. intros Hin. apply H. now right.
Qed.

Lemma filter_eqb_once (c : WebSocket) (l : list WebSocket) :
  NoDup l -> In c l -> List.length (filter (Nat.eqb c) l) = 1%nat.
Proof.
  induction 1 as [|x l Hx Hl IH]; [intros []|].
  intros [->|Hin]; simpl.
  - rewrite Nat.eqb_refl. simpl. now rewrite filter_eqb_absent.
  - destruct (Nat.eqb_spec c x) as [->|_]; [contradiction|]. now apply IH.
Qed.

End Broadcast.

(** C6. [broadcast] serializes the event once, then sends that one text to
    each registered peer whose [readyState] is [OPEN], in registration order,
    once each; a peer in any other state gets nothing, and nothing is kept
    for later (the server's fields are unchanged). *)
Theorem C6_broadcast_best_effort
        (readyState : BridgeServer.WebSocket -> BridgeServer.ReadyState)
        (msg : JS.Value) (st : BridgeServer.t) :
  NoDup (BridgeServer.clients st) ->
  exists tr,
    BridgeServer.broadcast readyState msg st = (inr tt, st, tr)
    /\ tr = (BridgeServer.stringify msg
             :: map (fun c => BridgeServer.ws_send c (JS.JSON_stringify msg))
                    (filter (fun c => BridgeServer.is_OPEN (readyState c))
                            (BridgeServer.clients st)))%list
    /\ BridgeServer.count BridgeServer.is_stringify tr = 1%nat
    /\ (forall c, In c (BridgeServer.clients st) ->
                  readyState c = BridgeServer.OPEN ->
                  BridgeServer.count (BridgeServer.is_send_to c) tr = 1%nat)
    /\ (forall c, readyState c <> BridgeServer.OPEN ->
                  BridgeServer.count (BridgeServer.is_send_to c) tr = 0%nat)
    /\ (forall c, ~ In c (BridgeServer.clients st) ->
                  BridgeServer.count (BridgeServer.is_send_to c) tr = 0%nat).
Proof.
  intros Hnd. eexists. split; [apply broadcast_trace|].
  split; [reflexivity|].
  set (live := filter (fun c => BridgeServer.is_OPEN (readyState c))
                      (BridgeServer.clients st)).
  assert (Hc : forall p, p (BridgeServer.stringify msg) = false ->
             BridgeServer.count p
               (BridgeServer.stringify msg
                  :: map (fun c => BridgeServer.ws_send c (JS.JSON_stringify msg))
                         live)%list
             = List.length
                 (filter (fun c => p (BridgeServer.ws_send c (JS.JSON_stringify msg)))
                         live)).
  { intros p Hp. unfold BridgeServer.count at 1. simpl. rewrite Hp.
    apply (count_sends_map p). }
  split.
  { unfold BridgeServer.count. simpl. f_equal. clear Hc.
    induction live as [|x l IH]; [reflexivity|exact IH]. }
  split.
  { intros c Hin Hopen. rewrite Hc by reflexivity. simpl.
    apply filter_eqb_once.
    - now apply NoDup_filter.
    - apply filter_In. split; [exact Hin|]. now rewrite Hopen. }
  split.
  { intros c Hclosed. rewrite Hc by reflexivity. simpl.
    rewrite filter_eqb_absent; [reflexivity|].
    intros Hin. apply filter_In in Hin as [_ Hopen].
    apply Hclosed. destruct (readyState c); try discriminate. reflexivity. }
  intros c Hout. rewrite Hc by reflexivity. simpl.
  rewrite filter_eqb_absent; [reflexivity|].
  intros Hin. apply filter_In in Hin as [Hin _]. contradiction.
Qed.

(** C6, with three peers of which the second is closing. *)
Lemma C6_broadcast_best_effort_witness :
  exists tr,
    BridgeServer.broadcast
      (fun c => if Nat.eqb c 2 then BridgeServer.CLOSING else BridgeServer.OPEN)
      (JS.VObj [("type", JS.VStr "status"); ("status", JS.VStr "connected")]%list)
      (BridgeServer.mk (Some 3001%Z) None [1; 2; 3]%list)
    = (inr tt, BridgeServer.mk (Some 3001%Z) None [1; 2; 3]%list, tr)
    /\ BridgeServer.count (BridgeServer.is_send_to 1) tr = 1%nat
    /\ BridgeServer.count (BridgeServer.is_send_to 2) tr = 0%nat.
Proof.
  destruct (C6_broadcast_best_effort
    (fun c => if Nat.eqb c 2 then BridgeServer.CLOSING else BridgeServer.OPEN)
    (JS.VObj [("type", JS.VStr "status"); ("status", JS.VStr "connected")]%list)
    (BridgeServer.mk (Some 3001%Z) None [1; 2; 3]%list))
    as [tr [Hrun [_ [_ [Hopen [Hclosed _]]]]]].
  - repeat constructor; simpl; intuition discriminate.
  - exists tr. split; [exact Hrun|]. split.
    + apply Hopen; [simpl; tauto|reflexivity].
    + apply Hclosed. discriminate.
Defined.

(** ** Shutdown *)

Section Shutdown.

Import BridgeServer.
Local Open Scope list_scope.

Lemma for_of_emit_each {A} (f : A -> Effect) (xs : list A) (st : t) :
  for_of xs (fun x => emit [f x]) st = (inr tt, st, map f xs).
Proof.
  induction xs as [|x xs IH]; [reflexivity|].
  cbn [for_of map]. unfold bind. cbn [emit]. now rewrite IH.
Qed.

Lemma stop_runs (st : t) : stop st = (inr tt, mk None None [], stop_trace st).
Proof.
  unfold stop, stop_trace, bind, this, assign.
  rewrite for_of_emit_each. cbn [wss wa clients].
  destruct (wss st) as [port|], (wa st) as [client|]; cbn;
    try destruct (WhatsAppClient.disconnect client) as [client' effs]; cbn;
    rewrite ?app_nil_r; reflexivity.
Qed.

Lemma stop_trace_sorted (st : t) :
  StronglySorted (fun a b => stop_phase a <= stop_phase b) (stop_trace st).
Proof.
  unfold stop_trace.
  induction (clients st) as [|c cs IH].
  - cbn [map app].
    destruct (wss st), (wa st) as [client|];
      try (unfold WhatsAppClient.disconnect;
           destruct (WhatsAppClient.sock client)); cbn;
      repeat (constructor; cbn; try lia).
  - cbn [map app]. constructor; [exact IH|].
    apply Forall_forall. intros e _. cbn. lia.
Qed.

End Shutdown.

(** C8. [stop()] closes every registered peer, then closes the listener,
    then disconnects the adapter, in that order, and leaves the server with
    no peer, no listener and no adapter. *)
Theorem C8_stop_order (st : BridgeServer.t) :
  BridgeServer.stop st
  = (inr tt, BridgeServer.mk None None []%list, BridgeServer.stop_trace st)
  /\ StronglySorted
       (fun a b => BridgeServer.stop_phase a <= BridgeServer.stop_phase b)
       (BridgeServer.stop_trace st)
  /\ (forall c, In c (BridgeServer.clients st) ->
                In (BridgeServer.ws_close c) (BridgeServer.stop_trace st))
  /\ (BridgeServer.wss st <> None ->
      In BridgeServer.wss_close (BridgeServer.stop_trace st))
  /\ (forall client s,
        BridgeServer.wa st = Some client ->
        WhatsAppClient.sock client = Some s ->
        In (BridgeServer.adapter (WhatsAppClient.sock_end s))
           (BridgeServer.stop_trace st)).
Proof.
  split; [apply stop_runs|].
  split; [apply stop_trace_sorted|].
  unfold BridgeServer.stop_trace. split; [|split].
  - intros c Hc. apply in_or_app. left. now apply in_map.
  - intros Hw. apply in_or_app. right. apply in_or_app. left.
    destruct (BridgeServer.wss st); [now left|contradiction].
  - intros client s Hwa Hs. apply in_or_app. right. apply in_or_app. right.
    rewrite Hwa. unfold WhatsAppClient.disconnect. rewrite Hs. now left.
Qed.

(** C8, with two peers, a listener and a connected adapter. *)
Lemma C8_stop_order_witness :
  BridgeServer.stop
    (BridgeServer.mk (Some 3001%Z) (Some (WhatsAppClient.mk (Some 0%nat) false))
                     [4; 7]%list)
  = (inr tt, BridgeServer.mk None None []%list,
     [BridgeServer.ws_close 4; BridgeServer.ws_close 7; BridgeServer.wss_close;
      BridgeServer.adapter (WhatsAppClient.sock_end 0)]%list).
Proof.
  exact (proj1 (C8_stop_order
    (BridgeServer.mk (Some 3001%Z) (Some (WhatsAppClient.mk (Some 0%nat) false))
                     [4; 7]%list))).
Defined.

(** ** Commands from a peer *)

Section Commands.

Import BridgeServer.
Local Open Scope list_scope.

Variable lib : WhatsAppClient.Baileys.

(** A peer message that [JSON.parse] rejects. *)
Lemma on_message_malformed (ws : WebSocket) (why : string) (st : t) :
  ws_on_message lib ws (JS.NotJson why) st
  = (inr tt, st, replies ws (error (JS.String_ (JS.SyntaxError why)))).
Proof. reflexivity. Qed.

(** A peer message that parses to [null]. *)
Lemma on_message_null (ws : WebSocket) (st : t) :
  ws_on_message lib ws (JS.Json JS.VNull) st
  = (inr tt, st,
     replies ws (error (JS.String_
       (JS.TypeError "Cannot read properties of null (reading 'type')")))).
Proof. reflexivity. Qed.

(** A command the server does not forward: not of type [send], or no
    adapter yet. *)
Lemma on_message_no_action (ws : WebSocket) (cmd : JS.Value) (st : t) :
  cmd <> JS.VNull ->
  JS.strict_eq_str (type_of cmd) "send" = false \/ wa st = None ->
  ws_on_message lib ws (JS.Json cmd) st
  = (inr tt, st, replies ws (sent (to_of cmd))).
Proof.
  intros Hn H. unfold ws_on_message, try_catch, handleCommand, bind, type_of, to_of in *.
  destruct cmd; try contradiction; cbn in *;
    try reflexivity.
  destruct (JS.strict_eq_str (JS.lookup "type" props) "send").
  - destruct H as [H|H]; [discriminate|]. rewrite H. reflexivity.
  - reflexivity.
Qed.

(** A [send] command while the server has an adapter. *)
Lemma on_message_forwarded (ws : WebSocket) (cmd : JS.Value) (st : t)
      (client : WhatsAppClient.t) :
  JS.strict_eq_str (type_of cmd) "send" = true ->
  wa st = Some client ->
  ws_on_message lib ws (JS.Json cmd) st
  = (inr tt, st,
     map adapter
         (snd (WhatsAppClient.sendMessage lib client (to_of cmd) (text_of cmd)))
     ++ replies ws
          match fst (WhatsAppClient.sendMessage lib client (to_of cmd) (text_of cmd)) with
          | inr _ => sent (to_of cmd)
          | inl e => error (JS.String_ e)
          end).
Proof.
  intros Ht Hwa.
  unfold ws_on_message, try_catch, handleCommand, bind, type_of, to_of, text_of in *.
  destruct cmd; cbn in Ht; try discriminate.
  cbn. rewrite Ht, Hwa.
  destruct (WhatsAppClient.sendMessage lib client
              (JS.lookup "to" props) (JS.lookup "text" props)) as [[e|[]] effs];
    cbn; rewrite ?app_nil_r; reflexivity.
Qed.

End Commands.

Section Replies.

Import BridgeServer.
Local Open Scope list_scope.

Lemma filter_adapter (p : Effect -> bool) (l : list WhatsAppClient.Effect) :
  (forall e, p (adapter e) = false) -> filter p (map adapter l) = [].
Proof.
  intros H. induction l as [|e l IH]; [reflexivity|].
  simpl. now rewrite H.
Qed.

Lemma sends_of_forward (ws : WebSocket) (reply : JS.Value)
      (l : list WhatsAppClient.Effect) :
  filter is_send (map adapter l ++ replies ws reply)
  = [ws_send ws (JS.JSON_stringify reply)].
Proof.
  rewrite filter_app, filter_adapter by reflexivity. reflexivity.
Qed.

Lemma sends_to_other (ws ws' : WebSocket) (reply : JS.Value)
      (l : list WhatsAppClient.Effect) :
  ws' <> ws ->
  count (is_send_to ws') (map adapter l ++ replies ws reply) = 0%nat.
Proof.
  intros H. unfold count.
  rewrite filter_app, filter_adapter by reflexivity. simpl.
  destruct (Nat.eqb_spec ws' ws); [contradiction|reflexivity].
Qed.

Lemma type_send_is_send (cmd : JS.Value) :
  type_of cmd = Some (JS.VStr "send") ->
  JS.strict_eq_str (type_of cmd) "send" = true.
Proof. intros ->. reflexivity. Qed.

End Replies.

(** C5. A well-formed [send] command gets exactly one reply, on the socket
    it came from: [sent] when forwarding resolved, [error] when it threw; no
    other peer is sent anything. A text that is not JSON gets one [error]
    reply on its own socket, and neither the adapter nor the server's fields
    are touched. *)
Theorem C5_reply_to_sender_only
        (lib : WhatsAppClient.Baileys) (ws : BridgeServer.WebSocket)
        (st : BridgeServer.t) (cmd : JS.Value) (to text : string) :
  BridgeServer.type_of cmd = Some (JS.VStr "send") ->
  BridgeServer.to_of cmd = Some (JS.VStr to) ->
  BridgeServer.text_of cmd = Some (JS.VStr text) ->
  (exists tr reply,
      BridgeServer.ws_on_message lib ws (JS.Json cmd) st = (inr tt, st, tr)
      /\ filter BridgeServer.is_send tr
         = [BridgeServer.ws_send ws (JS.JSON_stringify reply)]%list
      /\ (forall ws', ws' <> ws ->
                      BridgeServer.count (BridgeServer.is_send_to ws') tr = 0%nat)
      /\ match BridgeServer.wa st with
         | None => reply = BridgeServer.sent (Some (JS.VStr to))
         | Some client =>
             match fst (WhatsAppClient.sendMessage lib client
                          (Some (JS.VStr to)) (Some (JS.VStr text))) with
             | inr _ => reply = BridgeServer.sent (Some (JS.VStr to))
             | inl e => reply = BridgeServer.error (JS.String_ e)
             end
         end)
  /\ (forall why,
        BridgeServer.ws_on_message lib ws (JS.NotJson why) st
        = (inr tt, st,
           BridgeServer.replies ws
             (BridgeServer.error (JS.String_ (JS.SyntaxError why))))).
Proof.
  intros Hty Hto Htx. split; [|intros why; apply on_message_malformed].
  destruct (BridgeServer.wa st) as [client|] eqn:Hwa.
  - eexists. eexists. split.
    { rewrite (on_message_forwarded lib ws cmd st client
                 (type_send_is_send cmd Hty) Hwa).
      rewrite Hto, Htx. reflexivity. }
    split; [apply sends_of_forward|].
    split; [intros ws' Hne; now apply sends_to_other|].
    destruct (fst (WhatsAppClient.sendMessage lib client
                     (Some (JS.VStr to)) (Some (JS.VStr text)))); reflexivity.
  - exists (BridgeServer.replies ws (BridgeServer.sent (Some (JS.VStr to)))),
           (BridgeServer.sent (Some (JS.VStr to))).
    split.
    { rewrite <- Hto. apply on_message_no_action; [|now right].
      intros ->. discriminate. }
    split; [reflexivity|]. split; [|reflexivity].
    intros ws' Hne. apply (sends_to_other ws ws' _ []%list Hne).
Qed.

(** C5, with a connected adapter whose library accepts the message. *)
Lemma C5_reply_to_sender_only_witness :
  exists tr,
    BridgeServer.ws_on_message (fun _ _ _ => None) 1
      (JS.Json (JS.VObj [("type", JS.VStr "send"); ("to", JS.VStr "1234@x");
                         ("text", JS.VStr "hi")]%list))
      (BridgeServer.mk (Some 3001%Z) (Some (WhatsAppClient.mk (Some 0%nat) false))
                       [1; 2]%list)
    = (inr tt,
       BridgeServer.mk (Some 3001%Z) (Some (WhatsAppClient.mk (Some 0%nat) false))
                       [1; 2]%list,
       tr)
    /\ filter BridgeServer.is_send tr
       = [BridgeServer.ws_send 1
            (JS.JSON_stringify (BridgeServer.sent (Some (JS.VStr "1234@x"))))]%list
    /\ BridgeServer.count (BridgeServer.is_send_to 2) tr = 0%nat.
Proof.
  destruct (C5_reply_to_sender_only (fun _ _ _ => None) 1
    (BridgeServer.mk (Some 3001%Z) (Some (WhatsAppClient.mk (Some 0%nat) false))
                     [1; 2]%list)
    (JS.VObj [("type", JS.VStr "send"); ("to", JS.VStr "1234@x");
              ("text", JS.VStr "hi")]%list)
    "1234@x" "hi" eq_refl eq_refl eq_refl)
    as [[tr [reply [Hrun [Hsend [Hother Hreply]]]]] _].
  exists tr. split; [exact Hrun|]. split.
  - simpl in Hreply. rewrite Hsend, Hreply. reflexivity.
  - apply Hother. discriminate.
Defined.

(** C9 as stated fails: the text [null] parses as JSON, nothing is forwarded
    to the adapter (which would have accepted a message), and yet the reply
    is an [error]. *)
Lemma C9_null_command_counterexample :
  ~ (forall (lib : WhatsAppClient.Baileys) ws st cmd r st' tr e,
       BridgeServer.ws_on_message lib ws (JS.Json cmd) st = (r, st', tr) ->
       In (BridgeServer.ws_send ws (JS.JSON_stringify (BridgeServer.error e))) tr ->
       JS.strict_eq_str (BridgeServer.type_of cmd) "send" = true
       /\ BridgeServer.wa st <> None).
Proof.
  intros H.
  destruct (H (fun _ _ _ => None) 1%nat
              (BridgeServer.mk (Some 3001%Z)
                 (Some (WhatsAppClient.mk (Some 0%nat) false)) [1%nat]%list)
              JS.VNull _ _ _
              "TypeError: Cannot read properties of null (reading 'type')"
              eq_refl) as [Hsend _].
  - right. left. reflexivity.
  - discriminate Hsend.
Qed.

(** C9, amended. A peer message that parses to a value other than [null]
    gets exactly one reply: [sent] with the command's [to] when nothing is
    forwarded (the type is not [send], or there is no adapter) or when the
    forwarded send resolves, [error] when the forwarded send throws. A
    message that parses to [null] gets an [error] reply for the [TypeError]
    of reading its [type]. *)
Theorem C9_reply_for_parsed_command
        (lib : WhatsAppClient.Baileys) (ws : BridgeServer.WebSocket)
        (st : BridgeServer.t) (cmd : JS.Value) :
  cmd <> JS.VNull ->
  (exists tr,
      BridgeServer.ws_on_message lib ws (JS.Json cmd) st = (inr tt, st, tr)
      /\ filter BridgeServer.is_send tr
         = [BridgeServer.ws_send ws
              (JS.JSON_stringify
                 match JS.strict_eq_str (BridgeServer.type_of cmd) "send",
                       BridgeServer.wa st with
                 | true, Some client =>
                     match fst (WhatsAppClient.sendMessage lib client
                                  (BridgeServer.to_of cmd)
                                  (BridgeServer.text_of cmd)) with
                     | inr _ => BridgeServer.sent (BridgeServer.to_of cmd)
                     | inl e => BridgeServer.error (JS.String_ e)
                     end
                 | _, _ => BridgeServer.sent (BridgeServer.to_of cmd)
                 end)]%list
      /\ (JS.strict_eq_str (BridgeServer.type_of cmd) "send" = false
          \/ BridgeServer.wa st = None ->
          tr = BridgeServer.replies ws (BridgeServer.sent (BridgeServer.to_of cmd))))
  /\ BridgeServer.ws_on_message lib ws (JS.Json JS.VNull) st
     = (inr tt, st,
        BridgeServer.replies ws
          (BridgeServer.error
             "TypeError: Cannot read properties of null (reading 'type')")).
Proof.
  intros Hn. split; [|apply on_message_null].
  destruct (JS.strict_eq_str (BridgeServer.type_of cmd) "send") eqn:Hty.
  - destruct (BridgeServer.wa st) as [client|] eqn:Hwa.
    + eexists. split; [apply (on_message_forwarded lib ws cmd st client Hty Hwa)|].
      split; [apply sends_of_forward|].
      intros [H|H]; discriminate.
    + eexists. split; [apply on_message_no_action; [exact Hn|now right]|].
      split; [reflexivity|]. intros _. reflexivity.
  - eexists. split; [apply on_message_no_action; [exact Hn|now left]|].
    split; [reflexivity|]. intros _. reflexivity.
Qed.

(** C9, amended, at a command of unknown type. *)
Lemma C9_reply_for_parsed_command_witness :
  BridgeServer.ws_on_message (fun _ _ _ => None) 1
    (JS.Json (JS.VObj [("type", JS.VStr "ping"); ("to", JS.VStr "1234@x")]%list))
    (BridgeServer.mk (Some 3001%Z) (Some (WhatsAppClient.mk (Some 0%nat) false))
                     [1]%list)
  = (inr tt,
     BridgeServer.mk (Some 3001%Z) (Some (WhatsAppClient.mk (Some 0%nat) false))
                     [1]%list,
     BridgeServer.replies 1 (BridgeServer.sent (Some (JS.VStr "1234@x")))).
Proof.
  destruct (C9_reply_for_parsed_command (fun _ _ _ => None) 1
    (BridgeServer.mk (Some 3001%Z) (Some (WhatsAppClient.mk (Some 0%nat) false))
                     [1]%list)
    (JS.VObj [("type", JS.VStr "ping"); ("to", JS.VStr "1234@x")]%list))
    as [[tr [Hrun [_ Hnone]]] _].
  - discriminate.
  - rewrite Hrun, (Hnone (or_introl eq_refl)). reflexivity.
Defined.

(** ** Reconnection *)

Section Reconnect.

Import WhatsAppClient.
Local Open Scope list_scope.
Local Open Scope Z_scope.

Variable loggedOut : Z.

Lemma scheduled_app (t0 : Z) (l1 l2 : list Effect) :
  scheduled t0 (l1 ++ l2) = scheduled t0 l1 ++ scheduled t0 l2.
Proof. apply flat_map_app. Qed.

Lemma scheduled_on_qr (t0 : Z) (u : ConnectionUpdate) :
  scheduled t0 (on_qr u) = [].
Proof. unfold on_qr. destruct (JS.truthy (qr u)); reflexivity. Qed.

Lemma shouldReconnect_true (code : option Z) :
  code <> Some loggedOut -> shouldReconnect loggedOut code = true.
Proof.
  destruct code as [c|]; [|reflexivity]. intros H. simpl.
  destruct (Z.eqb_spec c loggedOut) as [->|_]; [contradiction|reflexivity].
Qed.

Lemma shouldReconnect_false (code : option Z) :
  code = Some loggedOut -> shouldReconnect loggedOut code = false.
Proof. intros ->. simpl. now rewrite Z.eqb_refl. Qed.

(** What a [close] update does to the world, by the two cases of the guard. *)
Lemma fire_close (w w' : World) (u : ConnectionUpdate) :
  is_connection u "close" = true ->
  fire loggedOut w (Ev_connection_update u) = Some w' ->
  if shouldReconnect loggedOut (statusCode u) && negb (reconnecting (client w))
  then w' = mkWorld (mk (sock (client w)) true) (now w)
                    (timers w ++ [now w + 5000]) (connects w) (sockets w)
                    (log w ++ on_qr u ++ [onStatus "disconnected"; setTimeout 5000])
  else w' = mkWorld (client w) (now w) (timers w) (connects w) (sockets w)
                    (log w ++ on_qr u ++ [onStatus "disconnected"]).
Proof.
  intros Hc. cbn [fire]. destruct (sockets w) eqn:Hs; [discriminate|].
  unfold connection_update. rewrite Hc.
  destruct (shouldReconnect loggedOut (statusCode u)
            && negb (reconnecting (client w)))%bool;
    intros E; injection E as <-;
    rewrite scheduled_app, scheduled_on_qr; cbn; rewrite ?app_nil_r;
    reflexivity.
Qed.

Lemma fire_single_flight (w w' : World) (e : Event) :
  single_flight w -> fire loggedOut w e = Some w' -> single_flight w'.
Proof.
  unfold single_flight. intros [Hlen Hdue].
  destruct e as [|ok|lib to text| |u|messages type| |d]; cbn [fire].
  - intros E. injection E as <-. now split.
  - destruct (connects w); [discriminate|].
    destruct ok; intros E; injection E as <-; now split.
  - destruct (sendMessage lib (client w) to text).
    intros E. injection E as <-. now split.
  - unfold disconnect. destruct (sock (client w));
      intros E; injection E as <-; now split.
  - destruct (sockets w); [discriminate|].
    unfold connection_update.
    destruct (is_connection u "close").
    + destruct (shouldReconnect loggedOut (statusCode u)
                && negb (reconnecting (client w)))%bool eqn:Hg;
        intros E; injection E as <-; cbn;
        rewrite scheduled_app, scheduled_on_qr; cbn.
      * apply andb_prop in Hg as [_ Hr]. apply negb_true_iff in Hr.
        rewrite Hr in Hlen. destruct (timers w); [|discriminate].
        split; [reflexivity|]. repeat constructor. lia.
      * rewrite app_nil_r. now split.
    + destruct (is_connection u "open");
        intros E; injection E as <-; cbn;
        rewrite ?scheduled_app, scheduled_on_qr; cbn; rewrite app_nil_r;
        now split.
  - destruct (sockets w); [discriminate|].
    intros E. injection E as <-. now split.
  - destruct (timers w) as [|due rest]; [discriminate|].
    destruct (Z.leb due (now w)); [|discriminate].
    intros E. injection E as <-. cbn.
    destruct (reconnecting (client w)); [|discriminate].
    destruct rest; [|discriminate]. split; [reflexivity|constructor].
  - destruct (Z.leb_spec 0 d); [|discriminate].
    intros E. injection E as <-. cbn. split; [exact Hlen|].
    eapply Forall_impl; [|exact Hdue]. cbn. intros due Hd. lia.
Qed.

Lemma run_single_flight (evs : list Event) :
  forall w w', single_flight w -> run loggedOut w evs = Some w' -> single_flight w'.
Proof.
  induction evs as [|e evs IH]; intros w w' Hw; cbn [run].
  - intros E. injection E as <-. exact Hw.
  - destruct (fire loggedOut w e) as [w1|] eqn:Hf; [|discriminate].
    apply IH. exact (fire_single_flight w w1 e Hw Hf).
Qed.

(** Every state of the adapter satisfies the single-flight invariant. *)
Lemma reachable_single_flight (w : World) :
  reachable loggedOut w -> single_flight w.
Proof.
  intros [evs Hrun]. apply (run_single_flight evs init w); [|exact Hrun].
  split; [reflexivity|constructor].
Qed.

(** With an empty timer queue, the passing of time changes nothing but the
    clock, and no timer can fire. *)
Lemma passive_idle (evs : list Event) :
  forall w w',
    timers w = [] ->
    forallb passive evs = true ->
    run loggedOut w evs = Some w' ->
    client w' = client w /\ timers w' = [] /\ connects w' = connects w
    /\ sockets w' = sockets w /\ log w' = log w.
Proof.
  induction evs as [|e evs IH]; intros w w' Ht Hp; cbn [run].
  - intros E. injection E as <-. now repeat split.
  - cbn [forallb] in Hp. apply andb_prop in Hp as [He Hp].
    destruct e; try discriminate He; cbn [fire].
    + rewrite Ht. discriminate.
    + destruct (Z.leb 0 d); [|discriminate].
      intros Hrun. apply IH in Hrun; [exact Hrun|exact Ht|exact Hp].
Qed.

(** A pending closure runs once its delay has passed, not before. *)
Lemma fires_after_delay (w : World) (due : Z) :
  timers w = [due] -> due <= now w + 5000 ->
  run loggedOut w [Tick 5000; Timer_fire]
  = Some (mkWorld (mk (sock (client w)) false) (now w + 5000) []
                  (S (connects w)) (sockets w) (log w ++ [connect_called])).
Proof.
  intros Ht Hd. cbn [run fire]. change (Z.leb 0 5000) with true.
  cbn [timers now client connects sockets log]. rewrite Ht.
  destruct (Z.leb_spec due (now w + 5000)); [reflexivity|lia].
Qed.

Lemma waits_for_delay (w : World) (d : Z) :
  timers w = [now w + 5000] -> 0 <= d < 5000 ->
  run loggedOut w [Tick d; Timer_fire] = None.
Proof.
  intros Ht Hd. cbn [run fire].
  destruct (Z.leb_spec 0 d); [|lia].
  cbn [timers now client connects sockets log]. rewrite Ht.
  destruct (Z.leb_spec (now w + 5000) (now w + d)); [lia|reflexivity].
Qed.

End Reconnect.

(** C1 as stated fails: the guard is cleared when the timer runs, before
    [connect()] starts. A close that arrives while that [connect()] is still
    under way finds the guard clear and schedules a second reconnect; five
    seconds later two [connect()] calls are under way at once, and each of
    them makes a socket. *)
Lemma C1_stacked_reconnect_counterexample :
  exists w1 w2 w3 w4,
    WhatsAppClient.run 401 WhatsAppClient.init
      [WhatsAppClient.Call_connect; WhatsAppClient.Resume_connect true;
       WhatsAppClient.Ev_connection_update
         (WhatsAppClient.mkUpdate (Some "close") (Some 500%Z) None);
       WhatsAppClient.Tick 5000; WhatsAppClient.Timer_fire]%list
    = Some w1
    /\ WhatsAppClient.reconnecting (WhatsAppClient.client w1) = false
    /\ WhatsAppClient.connects w1 = 1%nat
    /\ WhatsAppClient.fire 401 w1
         (WhatsAppClient.Ev_connection_update
            (WhatsAppClient.mkUpdate (Some "close") (Some 500%Z) None))
       = Some w2
    /\ WhatsAppClient.connects w2 = 1%nat
    /\ WhatsAppClient.timers w2 = [10000%Z]%list
    /\ WhatsAppClient.run 401 w2
         [WhatsAppClient.Tick 5000; WhatsAppClient.Timer_fire]%list
       = Some w3
    /\ WhatsAppClient.connects w3 = 2%nat
    /\ WhatsAppClient.run 401 w3
         [WhatsAppClient.Resume_connect true;
          WhatsAppClient.Resume_connect true]%list
       = Some w4
    /\ WhatsAppClient.log w4
       = [WhatsAppClient.connect_called; WhatsAppClient.makeWASocket 0;
          WhatsAppClient.onStatus "disconnected"; WhatsAppClient.setTimeout 5000;
          WhatsAppClient.connect_called;
          WhatsAppClient.onStatus "disconnected"; WhatsAppClient.setTimeout 5000;
          WhatsAppClient.connect_called;
          WhatsAppClient.makeWASocket 1; WhatsAppClient.makeWASocket 2]%list.
Proof.
  exists (WhatsAppClient.mkWorld (WhatsAppClient.mk (Some 0%nat) false) 5000
            []%list 1 1
            [WhatsAppClient.connect_called; WhatsAppClient.makeWASocket 0;
             WhatsAppClient.onStatus "disconnected";
             WhatsAppClient.setTimeout 5000;
             WhatsAppClient.connect_called]%list).
  exists (WhatsAppClient.mkWorld (WhatsAppClient.mk (Some 0%nat) true) 5000
            [10000%Z]%list 1 1
            [WhatsAppClient.connect_called; WhatsAppClient.makeWASocket 0;
             WhatsAppClient.onStatus "disconnected";
             WhatsAppClient.setTimeout 5000;
             WhatsAppClient.connect_called;
             WhatsAppClient.onStatus "disconnected";
             WhatsAppClient.setTimeout 5000]%list).
  exists (WhatsAppClient.mkWorld (WhatsAppClient.mk (Some 0%nat) false) 10000
            []%list 2 1
            [WhatsAppClient.connect_called; WhatsAppClient.makeWASocket 0;
             WhatsAppClient.onStatus "disconnected";
             WhatsAppClient.setTimeout 5000;
             WhatsAppClient.connect_called;
             WhatsAppClient.onStatus "disconnected";
             WhatsAppClient.setTimeout 5000;
             WhatsAppClient.connect_called]%list).
  exists (WhatsAppClient.mkWorld (WhatsAppClient.mk (Some 2%nat) false) 10000
            []%list 0 3
            [WhatsAppClient.connect_called; WhatsAppClient.makeWASocket 0;
             WhatsAppClient.onStatus "disconnected";
             WhatsAppClient.setTimeout 5000;
             WhatsAppClient.connect_called;
             WhatsAppClient.onStatus "disconnected";
             WhatsAppClient.setTimeout 5000;
             WhatsAppClient.connect_called;
             WhatsAppClient.makeWASocket 1;
             WhatsAppClient.makeWASocket 2]%list).
  repeat split; vm_compute; reflexivity.
Qed.

(** C1, amended. After any [close] update whose status code is not the logout
    code, exactly one reconnect closure is pending and the guard is set: if
    the guard was clear the handler schedules one, with delay 5000 ms, whether
    or not a [connect()] call is under way, and if the guard was set it
    schedules nothing. The guard is set from that scheduling until the
    closure runs. The pending closure cannot run before its delay has passed,
    and once five seconds have passed it runs, clears the guard and calls
    [connect()] once. *)
Theorem C1_reconnect_single_flight
        (loggedOut : Z) (w w' : WhatsAppClient.World)
        (u : WhatsAppClient.ConnectionUpdate) :
  WhatsAppClient.reachable loggedOut w ->
  WhatsAppClient.is_connection u "close" = true ->
  WhatsAppClient.statusCode u <> Some loggedOut ->
  WhatsAppClient.fire loggedOut w (WhatsAppClient.Ev_connection_update u) = Some w' ->
  WhatsAppClient.reconnecting (WhatsAppClient.client w') = true
  /\ (exists due, WhatsAppClient.timers w' = [due]%list
                  /\ (due <= WhatsAppClient.now w' + 5000)%Z)
  /\ (WhatsAppClient.reconnecting (WhatsAppClient.client w) = false ->
      WhatsAppClient.timers w = []%list
      /\ WhatsAppClient.timers w' = [(WhatsAppClient.now w + 5000)%Z]%list
      /\ WhatsAppClient.log w'
         = (WhatsAppClient.log w ++ WhatsAppClient.on_qr u
            ++ [WhatsAppClient.onStatus "disconnected";
                WhatsAppClient.setTimeout 5000])%list
      /\ forall d, (0 <= d < 5000)%Z ->
           WhatsAppClient.run loggedOut w'
             [WhatsAppClient.Tick d; WhatsAppClient.Timer_fire]%list = None)
  /\ (WhatsAppClient.reconnecting (WhatsAppClient.client w) = true ->
      WhatsAppClient.timers w' = WhatsAppClient.timers w
      /\ WhatsAppClient.log w'
         = (WhatsAppClient.log w ++ WhatsAppClient.on_qr u
            ++ [WhatsAppClient.onStatus "disconnected"])%list)
  /\ (exists w'',
        WhatsAppClient.run loggedOut w'
          [WhatsAppClient.Tick 5000; WhatsAppClient.Timer_fire]%list = Some w''
        /\ WhatsAppClient.log w''
           = (WhatsAppClient.log w' ++ [WhatsAppClient.connect_called])%list
        /\ WhatsAppClient.connects w'' = S (WhatsAppClient.connects w')
        /\ WhatsAppClient.timers w'' = []%list
        /\ WhatsAppClient.reconnecting (WhatsAppClient.client w'') = false).
Proof.
  intros Hreach Hclose Hcode Hfire.
  pose proof (reachable_single_flight loggedOut w Hreach) as [Hlen Hdue].
  pose proof (fire_close loggedOut w w' u Hclose Hfire) as Hw'.
  rewrite (shouldReconnect_true loggedOut _ Hcode) in Hw'. cbn [andb] in Hw'.
  destruct (WhatsAppClient.reconnecting (WhatsAppClient.client w)) eqn:Hr;
    cbn [negb] in Hw'; subst w'.
  - destruct (WhatsAppClient.timers w) as [|due [|? ?]] eqn:Ht;
      try discriminate Hlen.
    apply Forall_inv in Hdue.
    split; [exact Hr|]. split; [exists due; now split|].
    split; [discriminate|]. split; [now split|].
    eexists. split;
      [apply (fires_after_delay loggedOut _ due); [reflexivity|exact Hdue]|].
    cbn. now repeat split.
  - destruct (WhatsAppClient.timers w) as [|? ?] eqn:Ht; try discriminate Hlen.
    split; [reflexivity|].
    split; [eexists; split; [reflexivity|cbn; lia]|].
    split.
    { intros _. repeat split. intros d Hd.
      now apply waits_for_delay. }
    split; [discriminate|].
    eexists. split;
      [apply (fires_after_delay loggedOut _ (WhatsAppClient.now w + 5000));
       [reflexivity|cbn; lia]|].
    cbn. now repeat split.
Qed.

(** C1, at the first disconnect of a fresh connection, with status 500. *)
Lemma C1_reconnect_single_flight_witness :
  exists w',
    WhatsAppClient.fire 401
      (WhatsAppClient.mkWorld (WhatsAppClient.mk (Some 0%nat) false) 0
         []%list 0 1
         [WhatsAppClient.connect_called; WhatsAppClient.makeWASocket 0]%list)
      (WhatsAppClient.Ev_connection_update
         (WhatsAppClient.mkUpdate (Some "close") (Some 500%Z) None))
    = Some w'
    /\ WhatsAppClient.reconnecting (WhatsAppClient.client w') = true
    /\ exists due, WhatsAppClient.timers w' = [due]%list
                   /\ (due <= WhatsAppClient.now w' + 5000)%Z.
Proof.
  eexists. split; [reflexivity|].
  refine (let H := C1_reconnect_single_flight 401
            (WhatsAppClient.mkWorld (WhatsAppClient.mk (Some 0%nat) false) 0
               []%list 0 1
               [WhatsAppClient.connect_called; WhatsAppClient.makeWASocket 0]%list)
            _
            (WhatsAppClient.mkUpdate (Some "close") (Some 500%Z) None)
            _ eq_refl _ eq_refl in
          conj (proj1 H) (proj1 (proj2 H))).
  - exists [WhatsAppClient.Call_connect; WhatsAppClient.Resume_connect true]%list.
    reflexivity.
  - discriminate.
Defined.

(** C2 as stated fails: a logout that arrives while a reconnect is already
    pending does not cancel it. After a disconnect with status 500 and then
    one with the logout code 401, five seconds of waiting end in a
    [connect()] call that nobody asked for. *)
Lemma C2_pending_reconnect_counterexample :
  ~ (forall w u w',
       WhatsAppClient.reachable 401 w ->
       WhatsAppClient.is_connection u "close" = true ->
       WhatsAppClient.statusCode u = Some 401%Z ->
       WhatsAppClient.fire 401 w (WhatsAppClient.Ev_connection_update u) = Some w' ->
       forall evs w'',
         forallb WhatsAppClient.passive evs = true ->
         WhatsAppClient.run 401 w' evs = Some w'' ->
         WhatsAppClient.log w'' = WhatsAppClient.log w').
Proof.
  intros H.
  specialize (H
    (WhatsAppClient.mkWorld (WhatsAppClient.mk (Some 0%nat) true) 0
       [5000%Z]%list 0 1
       [WhatsAppClient.connect_called; WhatsAppClient.makeWASocket 0;
        WhatsAppClient.onStatus "disconnected";
        WhatsAppClient.setTimeout 5000]%list)
    (WhatsAppClient.mkUpdate (Some "close") (Some 401%Z) None)
    _
    (ex_intro _
       [WhatsAppClient.Call_connect; WhatsAppClient.Resume_connect true;
        WhatsAppClient.Ev_connection_update
          (WhatsAppClient.mkUpdate (Some "close") (Some 500%Z) None)]%list
       eq_refl)
    eq_refl eq_refl eq_refl
    [WhatsAppClient.Tick 5000; WhatsAppClient.Timer_fire]%list
    _ eq_refl eq_refl).
  apply (f_equal (@List.length _)) in H. discriminate H.
Qed.

(** C2, amended. A [close] update with the logout code schedules nothing:
    the adapter's fields, the timer queue and the suspended [connect()] calls
    are as before and the only effect is the [disconnected] status (after the
    QR callback, if the update carries one). If no reconnect was pending at
    that moment, none is pending afterwards, and the passing of time alone
    makes the adapter do nothing more. *)
Theorem C2_logout_schedules_nothing
        (loggedOut : Z) (w w' : WhatsAppClient.World)
        (u : WhatsAppClient.ConnectionUpdate) :
  WhatsAppClient.is_connection u "close" = true ->
  WhatsAppClient.statusCode u = Some loggedOut ->
  WhatsAppClient.fire loggedOut w (WhatsAppClient.Ev_connection_update u) = Some w' ->
  WhatsAppClient.client w' = WhatsAppClient.client w
  /\ WhatsAppClient.timers w' = WhatsAppClient.timers w
  /\ WhatsAppClient.connects w' = WhatsAppClient.connects w
  /\ WhatsAppClient.log w'
     = (WhatsAppClient.log w ++ WhatsAppClient.on_qr u
        ++ [WhatsAppClient.onStatus "disconnected"])%list
  /\ (WhatsAppClient.timers w = []%list ->
      forall evs w'',
        forallb WhatsAppClient.passive evs = true ->
        WhatsAppClient.run loggedOut w' evs = Some w'' ->
        WhatsAppClient.client w'' = WhatsAppClient.client w'
        /\ WhatsAppClient.timers w'' = []%list
        /\ WhatsAppClient.connects w'' = WhatsAppClient.connects w'
        /\ WhatsAppClient.log w'' = WhatsAppClient.log w').
Proof.
  intros Hclose Hcode Hfire.
  pose proof (fire_close loggedOut w w' u Hclose Hfire) as Hw'.
  rewrite (shouldReconnect_false loggedOut _ Hcode) in Hw'. cbn [andb] in Hw'.
  subst w'. cbn [WhatsAppClient.client WhatsAppClient.timers
                 WhatsAppClient.connects WhatsAppClient.log].
  repeat (split; [reflexivity|]).
  intros Ht evs w'' Hp Hrun.
  destruct ((fun H => passive_idle loggedOut evs _ w'' H Hp Hrun) Ht)
    as [Hc [Ht' [Hn [_ Hl]]]].
  now repeat split.
Qed.

(** C2, amended, at a logout on a connected adapter followed by a minute of
    waiting. *)
Lemma C2_logout_schedules_nothing_witness :
  exists w',
    WhatsAppClient.fire 401
      (WhatsAppClient.mkWorld (WhatsAppClient.mk (Some 0%nat) false) 0
         []%list 0 1
         [WhatsAppClient.connect_called; WhatsAppClient.makeWASocket 0]%list)
      (WhatsAppClient.Ev_connection_update
         (WhatsAppClient.mkUpdate (Some "close") (Some 401%Z) None))
    = Some w'
    /\ WhatsAppClient.timers w' = []%list
    /\ forall w'',
         WhatsAppClient.run 401 w' [WhatsAppClient.Tick 60000]%list = Some w'' ->
         WhatsAppClient.log w'' = WhatsAppClient.log w'.
Proof.
  eexists. split; [reflexivity|].
  pose proof (C2_logout_schedules_nothing 401
    (WhatsAppClient.mkWorld (WhatsAppClient.mk (Some 0%nat) false) 0
       []%list 0 1
       [WhatsAppClient.connect_called; WhatsAppClient.makeWASocket 0]%list)
    _ (WhatsAppClient.mkUpdate (Some "close") (Some 401%Z) None)
    eq_refl eq_refl eq_refl) as [_ [Ht [_ [_ Hidle]]]].
  split; [exact Ht|].
  intros w'' Hrun.
  exact (proj2 (proj2 (proj2
    (Hidle eq_refl [WhatsAppClient.Tick 60000]%list w'' eq_refl Hrun)))).
Defined.

(** ** Sending *)

(** C4 as stated fails: after a logout the adapter has reported
    [disconnected] and will not reconnect, yet it still holds the closed
    socket, so a send is not refused with "Not connected": it is passed to
    Baileys, and the peer's reply is whatever Baileys answers. *)
Lemma C4_closed_socket_counterexample :
  exists w,
    WhatsAppClient.run 401 WhatsAppClient.init
      [WhatsAppClient.Call_connect; WhatsAppClient.Resume_connect true;
       WhatsAppClient.Ev_connection_update
         (WhatsAppClient.mkUpdate (Some "open") None None);
       WhatsAppClient.Ev_connection_update
         (WhatsAppClient.mkUpdate (Some "close") (Some 401%Z) None)]%list
    = Some w
    /\ WhatsAppClient.last_status None (WhatsAppClient.log w) = Some "disconnected"
    /\ WhatsAppClient.timers w = []%list
    /\ WhatsAppClient.sendMessage (fun _ _ _ => None) (WhatsAppClient.client w)
         (Some (JS.VStr "1234@x")) (Some (JS.VStr "hi"))
       = (inr tt,
          [WhatsAppClient.sock_sendMessage 0
             (Some (JS.VStr "1234@x")) (Some (JS.VStr "hi"))]%list)
    /\ BridgeServer.ws_on_message (fun _ _ _ => None) 1
         (JS.Json (JS.VObj [("type", JS.VStr "send"); ("to", JS.VStr "1234@x");
                            ("text", JS.VStr "hi")]%list))
         (BridgeServer.mk (Some 3001%Z) (Some (WhatsAppClient.client w)) [1]%list)
       = (inr tt,
          BridgeServer.mk (Some 3001%Z) (Some (WhatsAppClient.client w)) [1]%list,
          (BridgeServer.adapter
             (WhatsAppClient.sock_sendMessage 0
                (Some (JS.VStr "1234@x")) (Some (JS.VStr "hi")))
           :: BridgeServer.replies 1
                (BridgeServer.sent (Some (JS.VStr "1234@x"))))%list)
    /\ BridgeServer.ws_on_message
         (fun _ _ _ => Some (JS.Error "Connection Closed")) 1
         (JS.Json (JS.VObj [("type", JS.VStr "send"); ("to", JS.VStr "1234@x");
                            ("text", JS.VStr "hi")]%list))
         (BridgeServer.mk (Some 3001%Z) (Some (WhatsAppClient.client w)) [1]%list)
       = (inr tt,
          BridgeServer.mk (Some 3001%Z) (Some (WhatsAppClient.client w)) [1]%list,
          (BridgeServer.adapter
             (WhatsAppClient.sock_sendMessage 0
                (Some (JS.VStr "1234@x")) (Some (JS.VStr "hi")))
           :: BridgeServer.replies 1
                (BridgeServer.error "Error: Connection Closed"))%list).
Proof.
  eexists. split; [reflexivity|]. cbn. repeat split.
Qed.

(** C4, amended. [sendMessage] throws "Not connected", calling nothing, if
    and only if the adapter holds no socket (before [connect()] has made one,
    or after [disconnect()]); with a socket, open or not, it makes exactly
    one [sock.sendMessage] call and resolves or throws as that call does. A
    peer whose [send] command arrives while the adapter holds no socket gets
    the reply [{type:"error", error:"Error: Not connected"}] and nothing is
    sent out. *)
Theorem C4_not_connected_guard
        (lib : WhatsAppClient.Baileys) (client : WhatsAppClient.t)
        (to text : option JS.Value) :
  (WhatsAppClient.sock client = None <->
   WhatsAppClient.sendMessage lib client to text
   = (inl (JS.Error "Not connected"), []%list))
  /\ (forall s, WhatsAppClient.sock client = Some s ->
        WhatsAppClient.sendMessage lib client to text
        = (match lib s to text with Some e => inl e | None => inr tt end,
           [WhatsAppClient.sock_sendMessage s to text]%list))
  /\ (forall ws st cmd,
        WhatsAppClient.sock client = None ->
        BridgeServer.wa st = Some client ->
        JS.strict_eq_str (BridgeServer.type_of cmd) "send" = true ->
        BridgeServer.ws_on_message lib ws (JS.Json cmd) st
        = (inr tt, st,
           BridgeServer.replies ws (BridgeServer.error "Error: Not connected"))).
Proof.
  split; [|split].
  - unfold WhatsAppClient.sendMessage.
    destruct (WhatsAppClient.sock client); split; intros H;
      try reflexivity; discriminate H.
  - intros s Hs. unfold WhatsAppClient.sendMessage. now rewrite Hs.
  - intros ws st cmd Hs Hwa Hty.
    rewrite (on_message_forwarded lib ws cmd st client Hty Hwa).
    unfold WhatsAppClient.sendMessage. rewrite Hs. reflexivity.
Qed.

(** C4, amended, at a [send] command that arrives before the adapter has
    made its first socket. *)
Lemma C4_not_connected_guard_witness :
  BridgeServer.ws_on_message (fun _ _ _ => None) 1
    (JS.Json (JS.VObj [("type", JS.VStr "send"); ("to", JS.VStr "1234@x");
                       ("text", JS.VStr "hi")]%list))
    (BridgeServer.mk (Some 3001%Z) (Some WhatsAppClient.new) [1]%list)
  = (inr tt,
     BridgeServer.mk (Some 3001%Z) (Some WhatsAppClient.new) [1]%list,
     BridgeServer.replies 1 (BridgeServer.error "Error: Not connected")).
Proof.
  exact (proj2 (proj2 (C4_not_connected_guard (fun _ _ _ => None)
                         WhatsAppClient.new None None))
           1%nat
           (BridgeServer.mk (Some 3001%Z) (Some WhatsAppClient.new) [1]%list)
           (JS.VObj [("type", JS.VStr "send"); ("to", JS.VStr "1234@x");
                     ("text", JS.VStr "hi")]%list)
           eq_refl eq_refl eq_refl).
Defined.

(** * Further properties of the adapter *)

(** ** Inbound events *)

Section Inbound.

Local Open Scope list_scope.

Lemma length_append (p s : string) :
  String.length (String.append p s) = (String.length p + String.length s)%nat.
Proof. induction p as [|c p IH]; simpl; [reflexivity|now rewrite IH]. Qed.

Lemma substring_all (s : string) : substring 0 (String.length s) s = s.
Proof. induction s as [|c s IH]; simpl; [reflexivity|now rewrite IH]. Qed.

Lemma substring_after (p s : string) :
  substring (String.length p) (String.length s) (String.append p s) = s.
Proof. induction p as [|c p IH]; simpl; [apply substring_all|exact IH]. Qed.

Lemma substring_split (k m : nat) :
  forall s, (k + m)%nat = String.length s ->
            s = String.append (substring 0 k s) (substring k m s).
Proof.
  induction k as [|k IH]; intros s H.
  - simpl in H. subst m. rewrite substring_all.
    destruct s; reflexivity.
  - destruct s as [|c s]; [discriminate|].
    simpl in H. injection H as H. cbn [substring String.append].
    f_equal. now apply IH.
Qed.

(** [endsWith] holds exactly of the strings that end with the suffix. *)
Lemma endsWith_spec (s suffix : string) :
  JS.endsWith s suffix = true <-> exists p, s = String.append p suffix.
Proof.
  unfold JS.endsWith. split.
  - destruct (Nat.leb_spec (String.length suffix) (String.length s)) as [Hle|];
      [|discriminate].
    intros H. apply String.eqb_eq in H.
    exists (substring 0 (String.length s - String.length suffix) s).
    pose proof (substring_split (String.length s - String.length suffix)
                                (String.length suffix) s) as E.
    rewrite H in E. apply E. lia.
  - intros [p ->]. rewrite length_append.
    destruct (Nat.leb_spec (String.length suffix)
                           (String.length p + String.length suffix));
      [|lia].
    replace (String.length p + String.length suffix - String.length suffix)%nat
      with (String.length p) by lia.
    rewrite substring_after. apply String.eqb_refl.
Qed.

Lemma truthy_nonempty (o : option string) (c : string) :
  JS.truthy o = true -> o = Some c -> c <> "".
Proof.
  intros H ->. simpl in H. intros ->. discriminate.
Qed.

(** The content [extractMessageContent] returns is never the empty string. *)
Lemma content_nonempty (msg : WAMessage) (c : string) :
  extractMessageContent msg = Some c -> c <> "".
Proof.
  unfold extractMessageContent.
  destruct (message msg) as [m|]; [|discriminate].
  destruct (JS.truthy (conversation m)) eqn:H1;
    [intros H; exact (truthy_nonempty _ _ H1 H)|].
  destruct (JS.truthy (opt_text (extendedTextMessage m))) eqn:H2;
    [intros H; exact (truthy_nonempty _ _ H2 H)|].
  destruct (JS.truthy (opt_caption (imageMessage m)));
    [intros H; injection H as <-; discriminate|].
  destruct (JS.truthy (opt_caption (videoMessage m)));
    [intros H; injection H as <-; discriminate|].
  destruct (JS.truthy (opt_caption (documentMessage m)));
    [intros H; injection H as <-; discriminate|].
  destruct (audioMessage m); [|discriminate].
  intros H; injection H as <-; discriminate.
Qed.

Lemma upsert_events (messages : list WAMessage) :
  messages_upsert messages "notify"
  = flat_map (fun msg => match upsert_one msg with
                         | Some m => [m]
                         | None => []
                         end) messages.
Proof. reflexivity. Qed.

Lemma upsert_other_type (messages : list WAMessage) (type : string) :
  type <> "notify" -> messages_upsert messages type = [].
Proof.
  intros H. unfold messages_upsert.
  destruct (String.eqb_spec type "notify"); [contradiction|reflexivity].
Qed.

End Inbound.

(** X9. An inbound event carries the message's own data: a content that is
    not empty, the message id, sender and alternate sender (the empty string
    for one that is missing) and the timestamp; it is marked as a group
    message exactly when the sender address ends in "@g.us"; and it never
    comes from the account itself or from "status@broadcast". *)
Theorem X9_inbound_event_fields (msg : WAMessage) (ev : InboundMessage) :
  upsert_one msg = Some ev ->
  in_content ev <> ""
  /\ in_id ev = JS.or_empty (id (key msg))
  /\ in_sender ev = JS.or_empty (remoteJid (key msg))
  /\ in_pn ev = JS.or_empty (remoteJidAlt (key msg))
  /\ in_timestamp ev = messageTimestamp msg
  /\ (in_isGroup ev = true <-> exists p, in_sender ev = p ++ "@g.us")
  /\ fromMe (key msg) <> Some true
  /\ in_sender ev <> "status@broadcast".
Proof.
  intros H.
  pose proof (event_carries_content msg ev H) as Hc.
  split; [exact (content_nonempty msg _ Hc)|].
  unfold upsert_one in H.
  destruct (fromMe (key msg)) as [[|]|] eqn:Hme; try discriminate H;
    (destruct (remoteJid (key msg)) as [j|] eqn:Hj;
     [destruct (String.eqb_spec j "status@broadcast") as [|Hne];
      [discriminate H|]|]);
    destruct (extractMessageContent msg) as [c|]; try discriminate H;
    destruct (negb (JS.truthy (Some c))); try discriminate H;
    injection H as <-; cbn;
    repeat (split; [reflexivity|]);
    (split; [|split; [discriminate|try exact Hne; try discriminate]]);
    try apply endsWith_spec;
    (split; [discriminate|intros [p Hp]; destruct p; discriminate Hp]).
Qed.

(** X9, at a text message in a group. *)
Lemma X9_inbound_event_fields_witness :
  in_isGroup (mkInbound "D1" "120363@g.us" "" "hello" 1700000005 true) = true
  <-> exists p, "120363@g.us" = p ++ "@g.us".
Proof.
  exact (proj1 (proj2 (proj2 (proj2 (proj2 (proj2
    (X9_inbound_event_fields
       (mkWAMessage (mkKey (Some "120363@g.us") (Some false) (Some "D1") None)
          (Some (mkMessage (Some "hello") None None None None None)) 1700000005)
       (mkInbound "D1" "120363@g.us" "" "hello" 1700000005 true)
       eq_refl))))))).
Defined.

(** X10. A batch is handled message by message and in order: handling two
    batches one after the other gives the events of the joined batch; every
    event comes from a message of the batch; there are never more events than
    messages; and a batch whose type is not "notify" gives no event. *)
Theorem X10_upsert_batches (a b : list WAMessage) (type : string) :
  messages_upsert (a ++ b) type
  = (messages_upsert a type ++ messages_upsert b type)%list
  /\ (List.length (messages_upsert a type) <= List.length a)%nat
  /\ (forall ev, In ev (messages_upsert a type) ->
                 exists msg, In msg a /\ upsert_one msg = Some ev)
  /\ (type <> "notify" -> messages_upsert a type = []%list).
Proof.
  split; [|split; [|split]].
  - unfold messages_upsert.
    destruct (negb (String.eqb type "notify")); [reflexivity|].
    apply flat_map_app.
  - unfold messages_upsert.
    destruct (negb (String.eqb type "notify")); [simpl; lia|].
    induction a as [|msg a IH]; [reflexivity|].
    simpl. rewrite length_app.
    destruct (upsert_one msg); simpl; lia.
  - intros ev. unfold messages_upsert.
    destruct (negb (String.eqb type "notify")); [intros []|].
    intros Hin. apply in_flat_map in Hin as [msg [Hmsg Hev]].
    exists msg. split; [exact Hmsg|].
    destruct (upsert_one msg) as [m|]; [|destruct Hev].
    destruct Hev as [->|[]]. reflexivity.
  - apply upsert_other_type.
Qed.

(** X10, at a batch of type "append". *)
Lemma X10_upsert_batches_witness :
  messages_upsert
    [mkWAMessage (mkKey (Some "1234@s.whatsapp.net") None (Some "F1") None)
       (Some (mkMessage (Some "hello") None None None None None))
       1700000008]%list
    "append"
  = []%list.
Proof.
  refine (proj2 (proj2 (proj2 (X10_upsert_batches
    [mkWAMessage (mkKey (Some "1234@s.whatsapp.net") None (Some "F1") None)
       (Some (mkMessage (Some "hello") None None None None None))
       1700000008]%list
    []%list "append"))) _).
  discriminate.
Defined.

(** X11. Normalization gives a content exactly when the payload has a plain
    text, a quoted-reply text or a caption that is not empty, or an audio
    part; the content it gives is never the empty string. *)
Theorem X11_content_exists_iff (msg : WAMessage) :
  (extractMessageContent msg <> None <->
   exists m, message msg = Some m
             /\ (JS.truthy (conversation m) = true
                 \/ JS.truthy (opt_text (extendedTextMessage m)) = true
                 \/ JS.truthy (opt_caption (imageMessage m)) = true
                 \/ JS.truthy (opt_caption (videoMessage m)) = true
                 \/ JS.truthy (opt_caption (documentMessage m)) = true
                 \/ audioMessage m <> None))
  /\ (forall c, extractMessageContent msg = Some c -> c <> "").
Proof.
  split; [|intros c; apply content_nonempty].
  unfold extractMessageContent.
  destruct (message msg) as [m|].
  - destruct (JS.truthy (conversation m)) eqn:H1.
    { split; [intros _; exists m; tauto|].
      intros _. destruct (conversation m); [discriminate|discriminate H1]. }
    destruct (JS.truthy (opt_text (extendedTextMessage m))) eqn:H2.
    { split; [intros _; exists m; tauto|].
      intros _. destruct (opt_text (extendedTextMessage m));
        [discriminate|discriminate H2]. }
    destruct (JS.truthy (opt_caption (imageMessage m))) eqn:H3;
      [split; [intros _; exists m; tauto|discriminate]|].
    destruct (JS.truthy (opt_caption (videoMessage m))) eqn:H4;
      [split; [intros _; exists m; tauto|discriminate]|].
    destruct (JS.truthy (opt_caption (documentMessage m))) eqn:H5;
      [split; [intros _; exists m; tauto|discriminate]|].
    destruct (audioMessage m) as [a|] eqn:Ha.
    + split; [intros _; exists m|discriminate].
      split; [reflexivity|]. rewrite Ha. do 5 right. discriminate.
    + split; [intros H; now contradiction H|].
      intros [m' [Hm' H]]. injection Hm' as <-.
      rewrite H1, H2, H3, H4, H5, Ha in H.
      destruct H as [H|[H|[H|[H|[H|H]]]]];
        try discriminate H. now contradiction H.
  - split; [intros H; now contradiction H|].
    intros [m [Hm _]]. discriminate Hm.
Qed.

(** X11, at a payload whose only part is a document with a caption. *)
Lemma X11_content_exists_iff_witness :
  extractMessageContent
    (mkWAMessage (mkKey (Some "1234@s.whatsapp.net") None (Some "G1") None)
       (Some (mkMessage None None None None
                        (Some (mkCaption (Some "report.pdf"))) None))
       1700000009)
  <> None.
Proof.
  apply (proj1 (X11_content_exists_iff
    (mkWAMessage (mkKey (Some "1234@s.whatsapp.net") None (Some "G1") None)
       (Some (mkMessage None None None None
                        (Some (mkCaption (Some "report.pdf"))) None))
       1700000009))).
  eexists. split; [reflexivity|]. do 4 right. left. reflexivity.
Defined.

(** ** The adapter over time *)

Ltac fields :=
  cbn [WhatsAppClient.client WhatsAppClient.now WhatsAppClient.timers
       WhatsAppClient.connects WhatsAppClient.sockets WhatsAppClient.log
       WhatsAppClient.sock WhatsAppClient.reconnecting
       WhatsAppClient.reconnect_timeout fst snd].

Ltac quiet :=
  cbn [Journal.socket_ids flat_map filter Journal.is_connect_call
       Journal.is_library_send Journal.is_report app List.length];
  rewrite ?app_nil_r, ?Nat.add_0_r.

Section AdapterRuns.

Import WhatsAppClient Journal.
Local Open Scope list_scope.
Local Open Scope Z_scope.

Variable loggedOut : Z.

Lemma run_app (a b : list Event) :
  forall w, run loggedOut w (a ++ b)
            = match run loggedOut w a with
              | Some w' => run loggedOut w' b
              | None => None
              end.
Proof.
  induction a as [|e a IH]; intros w; [reflexivity|].
  cbn [app run]. destruct (fire loggedOut w e); [apply IH|reflexivity].
Qed.

Lemma socket_ids_app (l1 l2 : list Effect) :
  socket_ids (l1 ++ l2) = socket_ids l1 ++ socket_ids l2.
Proof. apply flat_map_app. Qed.

Lemma reports_of_qr (u : ConnectionUpdate) :
  filter is_report (on_qr u) = on_qr u.
Proof. unfold on_qr. destruct (JS.truthy (qr u)); reflexivity. Qed.

(** The effects of the three event handlers that are not [connect()]. *)
Lemma update_effects (this : t) (u : ConnectionUpdate) :
  let effs := snd (connection_update loggedOut this u) in
  filter is_report effs = reports u
  /\ socket_ids effs = []
  /\ filter is_connect_call effs = []
  /\ filter is_library_send effs = []
  /\ sock (fst (connection_update loggedOut this u)) = sock this.
Proof.
  unfold connection_update, reports, on_qr.
  destruct (is_connection u "close");
    [destruct (shouldReconnect loggedOut (statusCode u)
               && negb (reconnecting this))%bool|
     destruct (is_connection u "open")];
    destruct (JS.truthy (qr u)); cbn; repeat split; reflexivity.
Qed.

Lemma upsert_effects (p : Effect -> bool) (l : list InboundMessage) :
  (forall m, p (onMessage m) = false) -> filter p (map onMessage l) = [].
Proof.
  intros H. induction l as [|m l IH]; [reflexivity|].
  simpl. now rewrite H.
Qed.

Lemma upsert_no_socket (l : list InboundMessage) :
  socket_ids (map onMessage l) = [].
Proof. induction l as [|m l IH]; [reflexivity|exact IH]. Qed.

Lemma fire_accounted (w w' : World) (e : Event) :
  accounted w -> fire loggedOut w e = Some w' -> accounted w'.
Proof.
  unfold accounted. intros [Hids [Hsock Hcalls]].
  destruct e as [|ok|lib to text| |u|messages type| |d]; cbn [fire].
  - intros E. injection E as <-. fields.
    rewrite socket_ids_app, filter_app, length_app. quiet.
    repeat split; [exact Hids|exact Hsock|lia].
  - destruct (connects w) as [|n] eqn:Hn; [discriminate|].
    destruct ok; intros E; injection E as <-; fields.
    + rewrite socket_ids_app, filter_app, length_app, seq_S, Hids. quiet.
      repeat split; [|lia].
      intros s Hs. injection Hs as <-. lia.
    + repeat split; [exact Hids|exact Hsock|lia].
  - unfold sendMessage. destruct (sock (client w)) eqn:Hs;
      intros E; injection E as <-; fields;
      rewrite socket_ids_app, filter_app, length_app; quiet;
      repeat split; try exact Hids; try (rewrite Hs; exact Hsock); lia.
  - unfold disconnect. destruct (sock (client w)) eqn:Hs;
      intros E; injection E as <-; fields;
      rewrite socket_ids_app, filter_app, length_app; quiet;
      repeat split; try exact Hids; try discriminate; try lia.
    rewrite Hs. exact Hsock.
  - destruct (sockets w) as [|n] eqn:Hn; [discriminate|].
    pose proof (update_effects (client w) u) as [_ [H1 [H2 [_ H3]]]].
    destruct (connection_update loggedOut (client w) u) as [c effs].
    cbn [fst snd] in H1, H2, H3.
    intros E. injection E as <-. fields.
    rewrite socket_ids_app, filter_app, length_app, H1, H2, H3. quiet.
    repeat split; [exact Hids|exact Hsock|lia].
  - destruct (sockets w) as [|n] eqn:Hn; [discriminate|].
    intros E. injection E as <-. fields.
    rewrite socket_ids_app, filter_app, length_app, upsert_no_socket,
      (upsert_effects is_connect_call) by reflexivity. quiet.
    repeat split; [exact Hids|exact Hsock|lia].
  - destruct (timers w) as [|due rest]; [discriminate|].
    destruct (Z.leb due (now w)); [|discriminate].
    intros E. injection E as <-. fields.
    rewrite socket_ids_app, filter_app, length_app. quiet.
    repeat split; [exact Hids|exact Hsock|lia].
  - destruct (Z.leb 0 d); [|discriminate].
    intros E. injection E as <-. fields.
    repeat split; [exact Hids|exact Hsock|lia].
Qed.

Lemma reachable_accounted (w : World) :
  reachable loggedOut w -> accounted w.
Proof.
  intros [evs Hrun].
  assert (H : forall evs w0 w1, accounted w0 ->
                run loggedOut w0 evs = Some w1 -> accounted w1).
  { clear. induction evs as [|e evs IH]; intros w0 w1 H0; cbn [run].
    - intros E. injection E as <-. exact H0.
    - destruct (fire loggedOut w0 e) as [w2|] eqn:Hf; [|discriminate].
      apply IH. exact (fire_accounted w0 w2 e H0 Hf). }
  apply (H evs init w); [|exact Hrun].
  repeat split; [intros s Hs; discriminate Hs|cbn; lia].
Qed.

End AdapterRuns.

Section AdapterReports.

Import WhatsAppClient Journal.
Local Open Scope list_scope.

Variable loggedOut : Z.

Lemma fire_update (w : World) (u : ConnectionUpdate) :
  sockets w <> 0%nat ->
  exists w',
    fire loggedOut w (Ev_connection_update u) = Some w'
    /\ filter is_report (log w') = filter is_report (log w) ++ reports u
    /\ filter is_library_send (log w') = filter is_library_send (log w)
    /\ sock (client w') = sock (client w)
    /\ connects w' = connects w
    /\ sockets w' = sockets w.
Proof.
  intros Hs. cbn [fire]. destruct (sockets w) as [|n] eqn:Hn; [contradiction|].
  pose proof (update_effects loggedOut (client w) u) as [H1 [_ [_ [H2 H3]]]].
  destruct (connection_update loggedOut (client w) u) as [c effs].
  cbn [fst snd] in H1, H2, H3.
  eexists. split; [reflexivity|]. fields.
  rewrite !filter_app, H1, H2, app_nil_r. now repeat split.
Qed.

Lemma updates_reported (us : list ConnectionUpdate) :
  forall w, sockets w <> 0%nat ->
  exists w',
    run loggedOut w (map Ev_connection_update us) = Some w'
    /\ filter is_report (log w')
       = filter is_report (log w) ++ flat_map reports us
    /\ filter is_library_send (log w') = filter is_library_send (log w)
    /\ sock (client w') = sock (client w)
    /\ connects w' = connects w.
Proof.
  induction us as [|u us IH]; intros w Hs.
  - exists w. cbn. rewrite app_nil_r. now repeat split.
  - destruct (fire_update w u Hs) as [w1 [Hf [Hr [Hl [Hk [Hc Hn]]]]]].
    destruct (IH w1) as [w' [Hrun [Hr' [Hl' [Hk' Hc']]]]];
      [now rewrite Hn|].
    exists w'. cbn [map run flat_map]. rewrite Hf.
    split; [exact Hrun|].
    rewrite Hr', Hr, Hl', Hl, Hk', Hk, Hc', Hc, <- app_assoc.
    now repeat split.
Qed.

(** Without a socket, and short of a completed [connect()], no event hands
    anything to Baileys. *)
Lemma fire_without_socket (w w' : World) (e : Event) :
  sock (client w) = None ->
  completes_connect e = false ->
  fire loggedOut w e = Some w' ->
  sock (client w') = None
  /\ filter is_library_send (log w') = filter is_library_send (log w).
Proof.
  intros Hs Hc.
  destruct e as [|ok|lib to text| |u|messages type| |d]; cbn [fire].
  - intros E. injection E as <-. fields. rewrite filter_app. quiet.
    now split.
  - destruct ok; [discriminate Hc|].
    destruct (connects w); [discriminate|].
    intros E. injection E as <-. now split.
  - unfold sendMessage. rewrite Hs.
    intros E. injection E as <-. fields. rewrite app_nil_r. now split.
  - unfold disconnect. rewrite Hs.
    intros E. injection E as <-. fields. rewrite app_nil_r. now split.
  - destruct (sockets w) as [|n] eqn:Hn; [discriminate|].
    assert (Hne : sockets w <> 0%nat) by (rewrite Hn; discriminate).
    destruct (fire_update w u Hne) as [w1 [Hf [_ [Hl [Hk _]]]]].
    cbn [fire] in Hf. rewrite Hn in Hf. rewrite Hf.
    intros E. injection E as <-. split; [now rewrite Hk|exact Hl].
  - destruct (sockets w); [discriminate|].
    intros E. injection E as <-. fields.
    rewrite filter_app, (upsert_effects is_library_send) by reflexivity.
    rewrite app_nil_r. now split.
  - destruct (timers w) as [|due rest]; [discriminate|].
    destruct (Z.leb due (now w)); [|discriminate].
    intros E. injection E as <-. fields. rewrite filter_app. quiet.
    now split.
  - destruct (Z.leb 0 d); [|discriminate].
    intros E. injection E as <-. now split.
Qed.

Lemma run_without_socket (evs : list Event) :
  forall w w',
    sock (client w) = None ->
    forallb (fun e => negb (completes_connect e)) evs = true ->
    run loggedOut w evs = Some w' ->
    sock (client w') = None
    /\ filter is_library_send (log w') = filter is_library_send (log w).
Proof.
  induction evs as [|e evs IH]; intros w w' Hs Hall; cbn [run].
  - intros E. injection E as <-. now split.
  - cbn [forallb] in Hall. apply andb_prop in Hall as [He Hall].
    apply negb_true_iff in He.
    destruct (fire loggedOut w e) as [w1|] eqn:Hf; [|discriminate].
    destruct (fire_without_socket w w1 e Hs He Hf) as [Hs1 Hl1].
    intros Hrun. destruct (IH w1 w' Hs1 Hall Hrun) as [Hs' Hl'].
    split; [exact Hs'|]. now rewrite Hl'.
Qed.

End AdapterReports.

(** X5. Whatever state the adapter is in, a sequence of connection updates
    is reported in full and in order: one QR callback for every update that
    carries a challenge, then [disconnected] for a close or [connected] for
    an open. The updates never change the socket the adapter holds and never
    call [connect()] themselves. *)
Theorem X5_updates_reported_in_order
        (loggedOut : Z) (w : WhatsAppClient.World)
        (us : list WhatsAppClient.ConnectionUpdate) :
  WhatsAppClient.sockets w <> 0%nat ->
  exists w',
    WhatsAppClient.run loggedOut w (map WhatsAppClient.Ev_connection_update us)
    = Some w'
    /\ filter Journal.is_report (WhatsAppClient.log w')
       = (filter Journal.is_report (WhatsAppClient.log w)
          ++ flat_map Journal.reports us)%list
    /\ WhatsAppClient.sock (WhatsAppClient.client w')
       = WhatsAppClient.sock (WhatsAppClient.client w)
    /\ WhatsAppClient.connects w' = WhatsAppClient.connects w.
Proof.
  intros Hs.
  destruct (updates_reported loggedOut us w Hs) as [w' [H1 [H2 [_ [H3 H4]]]]].
  exists w'. now repeat split.
Qed.

(** X5, at three QR challenges followed by the opening of the connection. *)
Lemma X5_updates_reported_in_order_witness :
  exists w',
    WhatsAppClient.run 401
      (WhatsAppClient.mkWorld (WhatsAppClient.mk (Some 0%nat) false) 0
         []%list 0 1
         [WhatsAppClient.connect_called; WhatsAppClient.makeWASocket 0]%list)
      (map WhatsAppClient.Ev_connection_update
         [WhatsAppClient.mkUpdate None None (Some "qr-1");
          WhatsAppClient.mkUpdate None None (Some "qr-2");
          WhatsAppClient.mkUpdate None None (Some "qr-3");
          WhatsAppClient.mkUpdate (Some "open") None None]%list)
    = Some w'
    /\ filter Journal.is_report (WhatsAppClient.log w')
       = [WhatsAppClient.onQR "qr-1"; WhatsAppClient.onQR "qr-2";
          WhatsAppClient.onQR "qr-3"; WhatsAppClient.onStatus "connected"]%list.
Proof.
  destruct (X5_updates_reported_in_order 401
    (WhatsAppClient.mkWorld (WhatsAppClient.mk (Some 0%nat) false) 0
       []%list 0 1
       [WhatsAppClient.connect_called; WhatsAppClient.makeWASocket 0]%list)
    [WhatsAppClient.mkUpdate None None (Some "qr-1");
     WhatsAppClient.mkUpdate None None (Some "qr-2");
     WhatsAppClient.mkUpdate None None (Some "qr-3");
     WhatsAppClient.mkUpdate (Some "open") None None]%list)
    as [w' [Hrun [Hrep _]]].
  - discriminate.
  - exists w'. split; [exact Hrun|exact Hrep].
Defined.

(** X6. [disconnect()] leaves the adapter without a socket, and an adapter
    without a socket hands nothing to Baileys, whatever happens next (sends,
    updates, batches, timers firing, further [disconnect()] calls), until a
    [connect()] call gets as far as making a new socket. *)
Theorem X6_no_socket_no_send
        (loggedOut : Z) (w w1 w' : WhatsAppClient.World)
        (evs : list WhatsAppClient.Event) :
  WhatsAppClient.fire loggedOut w WhatsAppClient.Call_disconnect = Some w1 ->
  forallb (fun e => negb (Journal.completes_connect e)) evs = true ->
  WhatsAppClient.run loggedOut w1 evs = Some w' ->
  WhatsAppClient.sock (WhatsAppClient.client w1) = None
  /\ WhatsAppClient.sock (WhatsAppClient.client w') = None
  /\ filter Journal.is_library_send (WhatsAppClient.log w')
     = filter Journal.is_library_send (WhatsAppClient.log w).
Proof.
  intros Hd Hall Hrun.
  assert (H1 : WhatsAppClient.sock (WhatsAppClient.client w1) = None
               /\ filter Journal.is_library_send (WhatsAppClient.log w1)
                  = filter Journal.is_library_send (WhatsAppClient.log w)).
  { cbn [WhatsAppClient.fire] in Hd. unfold WhatsAppClient.disconnect in Hd.
    destruct (WhatsAppClient.sock (WhatsAppClient.client w)) eqn:Hs;
      injection Hd as <-; cbn; rewrite ?filter_app; cbn;
      rewrite ?app_nil_r; split; try reflexivity. exact Hs. }
  destruct H1 as [Hs1 Hl1].
  destruct (run_without_socket loggedOut evs w1 w' Hs1 Hall Hrun) as [Hs' Hl'].
  split; [exact Hs1|]. split; [exact Hs'|]. now rewrite Hl', Hl1.
Qed.

(** X6, at a send that follows a disconnect. *)
Lemma X6_no_socket_no_send_witness :
  exists w',
    WhatsAppClient.run 401
      (WhatsAppClient.mkWorld (WhatsAppClient.mk None false) 0 []%list 0 1
         [WhatsAppClient.connect_called; WhatsAppClient.makeWASocket 0;
          WhatsAppClient.sock_end 0]%list)
      [WhatsAppClient.Call_sendMessage (fun _ _ _ => None)
         (Some (JS.VStr "1234@x")) (Some (JS.VStr "hi"))]%list
    = Some w'
    /\ filter Journal.is_library_send (WhatsAppClient.log w') = []%list.
Proof.
  eexists. split; [reflexivity|].
  exact (proj2 (proj2 (X6_no_socket_no_send 401
    (WhatsAppClient.mkWorld (WhatsAppClient.mk (Some 0%nat) false) 0 []%list 0 1
       [WhatsAppClient.connect_called; WhatsAppClient.makeWASocket 0]%list)
    _ _
    [WhatsAppClient.Call_sendMessage (fun _ _ _ => None)
       (Some (JS.VStr "1234@x")) (Some (JS.VStr "hi"))]%list
    eq_refl eq_refl eq_refl))).
Defined.

Section AdapterReconnects.

Import WhatsAppClient Journal.
Local Open Scope list_scope.
Local Open Scope Z_scope.

Variable loggedOut : Z.

(** A reachable adapter with the guard set has exactly one closure pending,
    due within five seconds. *)
Lemma pending_reconnect (w : World) :
  reachable loggedOut w ->
  reconnecting (client w) = true ->
  exists due, timers w = [due] /\ due <= now w + 5000.
Proof.
  intros Hr Hg.
  destruct (reachable_single_flight loggedOut w Hr) as [Hlen Hdue].
  rewrite Hg in Hlen.
  destruct (timers w) as [|due [|? ?]]; try discriminate Hlen.
  exists due. split; [reflexivity|]. now apply Forall_inv in Hdue.
Qed.

(** After the delay the pending closure runs; what follows depends on
    whether its [connect()] call gets to [makeWASocket]. *)
Lemma reconnect_outcome (w : World) (due : Z) (ok : bool) :
  timers w = [due] -> due <= now w + 5000 ->
  run loggedOut w [Tick 5000; Timer_fire; Resume_connect ok]
  = Some (if ok
          then mkWorld (mk (Some (sockets w)) false) (now w + 5000) []
                       (connects w) (S (sockets w))
                       (log w ++ [connect_called; makeWASocket (sockets w)])
          else mkWorld (mk (sock (client w)) false) (now w + 5000) []
                       (connects w) (sockets w) (log w ++ [connect_called])).
Proof.
  intros Ht Hd.
  change [Tick 5000; Timer_fire; Resume_connect ok]
    with ([Tick 5000; Timer_fire] ++ [Resume_connect ok]).
  rewrite run_app, (fires_after_delay loggedOut w due Ht Hd).
  cbn [run fire]. fields.
  destruct ok; [|reflexivity].
  rewrite <- app_assoc. reflexivity.
Qed.

End AdapterReconnects.

(** X7. [disconnect()] does not cancel a reconnect that is pending: called
    during the delay, it ends the socket, and five seconds later the adapter
    calls [connect()] all the same and comes to hold a new socket. *)
Theorem X7_disconnect_keeps_pending_reconnect
        (loggedOut : Z) (w : WhatsAppClient.World) :
  WhatsAppClient.reachable loggedOut w ->
  WhatsAppClient.reconnecting (WhatsAppClient.client w) = true ->
  exists w',
    WhatsAppClient.run loggedOut w
      [WhatsAppClient.Call_disconnect; WhatsAppClient.Tick 5000;
       WhatsAppClient.Timer_fire; WhatsAppClient.Resume_connect true]%list
    = Some w'
    /\ WhatsAppClient.client w'
       = WhatsAppClient.mk (Some (WhatsAppClient.sockets w)) false
    /\ WhatsAppClient.timers w' = []%list
    /\ WhatsAppClient.log w'
       = (WhatsAppClient.log w
          ++ snd (WhatsAppClient.disconnect (WhatsAppClient.client w))
          ++ [WhatsAppClient.connect_called;
              WhatsAppClient.makeWASocket (WhatsAppClient.sockets w)])%list.
Proof.
  intros Hr Hg.
  destruct (pending_reconnect loggedOut w Hr Hg) as [due [Ht Hd]].
  cbn [WhatsAppClient.run WhatsAppClient.fire].
  destruct (WhatsAppClient.disconnect (WhatsAppClient.client w)) as [c effs].
  eexists. split.
  - apply (reconnect_outcome loggedOut _ due true); [exact Ht|exact Hd].
  - fields. rewrite <- app_assoc. now repeat split.
Qed.

(** X7, at a disconnect that follows a connection loss with status 500. *)
Lemma X7_disconnect_keeps_pending_reconnect_witness :
  exists w',
    WhatsAppClient.run 401
      (WhatsAppClient.mkWorld (WhatsAppClient.mk (Some 0%nat) true) 0
         [5000%Z]%list 0 1
         [WhatsAppClient.connect_called; WhatsAppClient.makeWASocket 0;
          WhatsAppClient.onStatus "disconnected";
          WhatsAppClient.setTimeout 5000]%list)
      [WhatsAppClient.Call_disconnect; WhatsAppClient.Tick 5000;
       WhatsAppClient.Timer_fire; WhatsAppClient.Resume_connect true]%list
    = Some w'
    /\ WhatsAppClient.client w' = WhatsAppClient.mk (Some 1%nat) false.
Proof.
  destruct (X7_disconnect_keeps_pending_reconnect 401
    (WhatsAppClient.mkWorld (WhatsAppClient.mk (Some 0%nat) true) 0
       [5000%Z]%list 0 1
       [WhatsAppClient.connect_called; WhatsAppClient.makeWASocket 0;
        WhatsAppClient.onStatus "disconnected";
        WhatsAppClient.setTimeout 5000]%list))
    as [w' [Hrun [Hc _]]].
  - exists [WhatsAppClient.Call_connect; WhatsAppClient.Resume_connect true;
            WhatsAppClient.Ev_connection_update
              (WhatsAppClient.mkUpdate (Some "close") (Some 500%Z) None)]%list.
    reflexivity.
  - reflexivity.
  - exists w'. split; [exact Hrun|exact Hc].
Defined.

Section AdapterRecovery.

Import WhatsAppClient Journal.
Local Open Scope list_scope.
Local Open Scope Z_scope.

Variable loggedOut : Z.

Lemma reachable_step (w w' : World) (e : Event) :
  reachable loggedOut w -> fire loggedOut w e = Some w' ->
  reachable loggedOut w'.
Proof.
  intros [evs Hrun] Hf. exists (evs ++ [e]).
  rewrite run_app, Hrun. cbn [run]. now rewrite Hf.
Qed.

(** A close with a status other than the logout code leaves the guard set. *)
Lemma close_sets_guard (w w' : World) (u : ConnectionUpdate) :
  reachable loggedOut w ->
  is_connection u "close" = true ->
  statusCode u <> Some loggedOut ->
  fire loggedOut w (Ev_connection_update u) = Some w' ->
  reconnecting (client w') = true /\ sockets w' = sockets w
  /\ connects w' = connects w.
Proof.
  intros Hr Hc Hcode Hf.
  pose proof (fire_close loggedOut w w' u Hc Hf) as Hw'.
  rewrite (shouldReconnect_true loggedOut _ Hcode) in Hw'. cbn [andb] in Hw'.
  destruct (reconnecting (client w)) eqn:Hg; cbn [negb] in Hw'; subst w';
    fields; now repeat split.
Qed.

End AdapterRecovery.

(** X12. After a connection loss with a status other than the logout code,
    the reconnect that completes gives the adapter a socket it never held
    before, and from then on a send goes to that socket and to no other. *)
Theorem X12_reconnect_makes_fresh_socket
        (loggedOut : Z) (w w' : WhatsAppClient.World)
        (u : WhatsAppClient.ConnectionUpdate) :
  WhatsAppClient.reachable loggedOut w ->
  WhatsAppClient.is_connection u "close" = true ->
  WhatsAppClient.statusCode u <> Some loggedOut ->
  WhatsAppClient.fire loggedOut w (WhatsAppClient.Ev_connection_update u) = Some w' ->
  exists w'',
    WhatsAppClient.run loggedOut w'
      [WhatsAppClient.Tick 5000; WhatsAppClient.Timer_fire;
       WhatsAppClient.Resume_connect true]%list
    = Some w''
    /\ WhatsAppClient.client w''
       = WhatsAppClient.mk (Some (WhatsAppClient.sockets w)) false
    /\ ~ In (WhatsAppClient.sockets w)
            (Journal.socket_ids (WhatsAppClient.log w'))
    /\ (forall s, WhatsAppClient.sock (WhatsAppClient.client w) = Some s ->
                  s <> WhatsAppClient.sockets w)
    /\ (forall lib to text,
          WhatsAppClient.sendMessage lib (WhatsAppClient.client w'') to text
          = (match lib (WhatsAppClient.sockets w) to text with
             | Some e => inl e
             | None => inr tt
             end,
             [WhatsAppClient.sock_sendMessage (WhatsAppClient.sockets w) to text]%list)).
Proof.
  intros Hr Hc Hcode Hf.
  pose proof (reachable_step loggedOut w w' _ Hr Hf) as Hr'.
  destruct (close_sets_guard loggedOut w w' u Hr Hc Hcode Hf) as [Hg [Hn Hk]].
  destruct (pending_reconnect loggedOut w' Hr' Hg) as [due [Ht Hd]].
  destruct (reachable_accounted loggedOut w Hr) as [_ [Hsock _]].
  destruct (reachable_accounted loggedOut w' Hr') as [Hids _].
  eexists. split; [apply (reconnect_outcome loggedOut w' due true Ht Hd)|].
  cbn [WhatsAppClient.client]. rewrite Hn.
  split; [reflexivity|]. split; [|split].
  - rewrite Hids, Hn. intros Hin. apply in_seq in Hin. lia.
  - intros s Hs. apply Hsock in Hs. lia.
  - intros lib to text. reflexivity.
Qed.

(** X12, at the first connection loss, with status 500. *)
Lemma X12_reconnect_makes_fresh_socket_witness :
  exists w'',
    WhatsAppClient.run 401
      (WhatsAppClient.mkWorld (WhatsAppClient.mk (Some 0%nat) true) 0
         [5000%Z]%list 0 1
         [WhatsAppClient.connect_called; WhatsAppClient.makeWASocket 0;
          WhatsAppClient.onStatus "disconnected";
          WhatsAppClient.setTimeout 5000]%list)
      [WhatsAppClient.Tick 5000; WhatsAppClient.Timer_fire;
       WhatsAppClient.Resume_connect true]%list
    = Some w''
    /\ WhatsAppClient.client w'' = WhatsAppClient.mk (Some 1%nat) false.
Proof.
  destruct (X12_reconnect_makes_fresh_socket 401
    (WhatsAppClient.mkWorld (WhatsAppClient.mk (Some 0%nat) false) 0
       []%list 0 1
       [WhatsAppClient.connect_called; WhatsAppClient.makeWASocket 0]%list)
    (WhatsAppClient.mkWorld (WhatsAppClient.mk (Some 0%nat) true) 0
       [5000%Z]%list 0 1
       [WhatsAppClient.connect_called; WhatsAppClient.makeWASocket 0;
        WhatsAppClient.onStatus "disconnected";
        WhatsAppClient.setTimeout 5000]%list)
    (WhatsAppClient.mkUpdate (Some "close") (Some 500%Z) None))
    as [w'' [Hrun [Hc _]]].
  - exists [WhatsAppClient.Call_connect; WhatsAppClient.Resume_connect true]%list.
    reflexivity.
  - reflexivity.
  - discriminate.
  - reflexivity.
  - exists w''. split; [exact Hrun|exact Hc].
Defined.

(** * Further properties of the relay *)

Section Relay.

Import BridgeServer Wiring.
Local Open Scope list_scope.

Variable readyState : WebSocket -> ReadyState.
Variable lib : WhatsAppClient.Baileys.

(** Any peer message whatsoever: the handler returns, the fields are as
    before, and what it does is at most one call into the adapter's socket
    followed by one reply. *)
Lemma on_message_any (ws : WebSocket) (data : JS.Wire) (st : t) :
  exists calls reply,
    ws_on_message lib ws data st
    = (inr tt, st, map adapter calls ++ replies ws reply)
    /\ (List.length calls <= 1)%nat
    /\ (forall e, In e calls -> Journal.is_library_send e = true).
Proof.
  destruct data as [cmd|why].
  - destruct (JS.strict_eq_str (type_of cmd) "send") eqn:Hty.
    + destruct (wa st) as [client|] eqn:Hwa.
      * eexists. eexists.
        split; [apply (on_message_forwarded lib ws cmd st client Hty Hwa)|].
        unfold WhatsAppClient.sendMessage.
        destruct (WhatsAppClient.sock client); cbn [snd List.length In];
          (split; [lia|]).
        { intros e [<-|[]]. reflexivity. }
        { intros e []. }
      * destruct cmd; try discriminate Hty.
        exists [], (sent (to_of (JS.VObj props))).
        split; [|split; [cbn; lia|intros e []]].
        apply on_message_no_action; [discriminate|now right].
    + destruct cmd;
        try (eexists []; eexists;
             split; [apply on_message_no_action; [discriminate|now left]|];
             split; [cbn; lia|intros e []]).
      eexists []. eexists.
      split; [apply on_message_null|]. split; [cbn; lia|intros e []].
  - eexists []. eexists.
    split; [apply on_message_malformed|]. split; [cbn; lia|intros e []].
Qed.

Lemma callback_broadcasts (e : WhatsAppClient.Effect) (st : t) :
  callback readyState e st
  = match envelope e with
    | Some v => broadcast readyState v st
    | None => (inr tt, st, [])
    end.
Proof. destruct e; reflexivity. Qed.

Lemma set_add_nodup (ws : WebSocket) (l : list WebSocket) :
  NoDup l -> NoDup (set_add ws l).
Proof.
  intros H. unfold set_add. destruct (existsb (Nat.eqb ws) l) eqn:He; [exact H|].
  assert (Hout : ~ In ws l).
  { intros Hin.
    assert (existsb (Nat.eqb ws) l = true); [|congruence].
    apply existsb_exists. exists ws. split; [exact Hin|apply Nat.eqb_refl]. }
  clear He. induction H as [|y l Hy Hl IH]; cbn.
  - constructor; [intros []|constructor].
  - constructor.
    + rewrite in_app_iff. cbn. intros [Hin|[->|[]]]; [contradiction|].
      apply Hout. now left.
    + apply IH. intros Hin. apply Hout. now right.
Qed.

Lemma set_add_in (ws x : WebSocket) (l : list WebSocket) :
  In x (set_add ws l) <-> x = ws \/ In x l.
Proof.
  unfold set_add. destruct (existsb (Nat.eqb ws) l) eqn:He.
  - apply existsb_exists in He as [y [Hy Heq]]. apply Nat.eqb_eq in Heq.
    subst y. split; [now right|]. intros [->|H]; assumption.
  - rewrite in_app_iff. cbn. split.
    + intros [H|[->|[]]]; [now right|now left].
    + intros [->|H]; [right; now left|now left].
Qed.

Lemma set_delete_in (ws x : WebSocket) (l : list WebSocket) :
  In x (set_delete ws l) <-> x <> ws /\ In x l.
Proof.
  unfold set_delete. rewrite filter_In.
  destruct (Nat.eqb_spec ws x) as [->|Hne]; cbn; split.
  - intros [_ H]. discriminate H.
  - intros [H _]. now contradiction H.
  - intros [H _]. split; [congruence|exact H].
  - intros [_ H]. now split.
Qed.

(** Every handler keeps the peer set free of repetitions. *)
Lemma handle_nodup (h : Handler) (st : t) :
  NoDup (clients st) ->
  NoDup (clients (fields_after (handle readyState lib h st))).
Proof.
  intros H. destruct h as [ws|ws data|ws|ws|e|port|]; cbn [handle].
  - cbn. now apply set_add_nodup.
  - destruct (on_message_any ws data st) as [calls [reply [-> _]]]. exact H.
  - cbn. now apply NoDup_filter.
  - cbn. now apply NoDup_filter.
  - rewrite callback_broadcasts. destruct (envelope e); [|exact H].
    rewrite broadcast_trace. exact H.
  - exact H.
  - rewrite stop_runs. constructor.
Qed.

(** How many texts one broadcast sends to a peer. *)
Lemma broadcast_count (c : WebSocket) (msg : JS.Value) (st : t) :
  count (is_send_to c) (effects_of (broadcast readyState msg st))
  = List.length (filter (Nat.eqb c)
                        (filter (fun x => is_OPEN (readyState x)) (clients st))).
Proof.
  rewrite broadcast_trace. unfold effects_of, count. cbn [snd filter is_send_to].
  apply (count_sends_map (is_send_to c)).
Qed.

Lemma filter_eqb_single (c : WebSocket) (l : list WebSocket) :
  NoDup l -> In c l -> filter (Nat.eqb c) l = [c].
Proof.
  induction 1 as [|x l Hx Hl IH]; [intros []|].
  intros [->|Hin]; cbn.
  - rewrite Nat.eqb_refl. now rewrite filter_eqb_absent.
  - destruct (Nat.eqb_spec c x) as [->|_]; [contradiction|]. now apply IH.
Qed.

(** The texts one broadcast sends to a peer that is registered and open. *)
Lemma broadcast_to_open (c : WebSocket) (msg : JS.Value) (st : t) :
  NoDup (clients st) -> In c (clients st) -> readyState c = OPEN ->
  filter (is_send_to c) (effects_of (broadcast readyState msg st))
  = [ws_send c (JS.JSON_stringify msg)].
Proof.
  intros Hnd Hin Hopen. rewrite broadcast_trace.
  unfold effects_of. cbn [snd filter is_send_to].
  set (live := filter (fun x => is_OPEN (readyState x)) (clients st)).
  assert (Hlive : filter (Nat.eqb c) live = [c]).
  { apply filter_eqb_single; [now apply NoDup_filter|].
    apply filter_In. split; [exact Hin|now rewrite Hopen]. }
  clearbody live. revert Hlive. clear.
  induction live as [|x l IH]; [discriminate|].
  cbn. destruct (Nat.eqb_spec c x) as [->|Hne].
  - intros E. injection E as E. f_equal.
    clear IH. induction l as [|y l IH]; [reflexivity|].
    cbn in *. destruct (Nat.eqb x y); [discriminate|now apply IH].
  - exact IH.
Qed.

(** ... and to a peer that is not. *)
Lemma broadcast_to_other (c : WebSocket) (msg : JS.Value) (st : t) :
  ~ In c (clients st) \/ readyState c <> OPEN ->
  filter (is_send_to c) (effects_of (broadcast readyState msg st)) = [].
Proof.
  intros H. apply length_zero_iff_nil.
  change (count (is_send_to c) (effects_of (broadcast readyState msg st)) = 0%nat).
  rewrite broadcast_count, filter_eqb_absent; [reflexivity|].
  intros Hin. apply filter_In in Hin as [Hin Hopen].
  destruct H as [H|H]; [contradiction|].
  apply H. destruct (readyState c); try discriminate. reflexivity.
Qed.

End Relay.

Section Registry.

Import BridgeServer Wiring.
Local Open Scope list_scope.

Variable readyState : WebSocket -> ReadyState.

Lemma serve_nodup (lib : WhatsAppClient.Baileys)
      (hs : list ((WebSocket -> ReadyState) * Handler)) :
  forall st, NoDup (clients st) -> NoDup (clients (fst (serve lib hs st))).
Proof.
  induction hs as [|[rs h] hs IH]; intros st H; [exact H|].
  cbn [serve].
  pose proof (IH _ (handle_nodup rs lib h st H)) as H'.
  destruct (serve lib hs (fields_after (handle rs lib h st))). exact H'.
Qed.

(** The texts one broadcast sends to a peer, in general. *)
Lemma broadcast_filter (c : WebSocket) (msg : JS.Value) (st : t) :
  filter (is_send_to c) (effects_of (broadcast readyState msg st))
  = map (fun x => ws_send x (JS.JSON_stringify msg))
        (filter (Nat.eqb c)
                (filter (fun x => is_OPEN (readyState x)) (clients st))).
Proof.
  rewrite broadcast_trace. unfold effects_of. cbn [snd filter is_send_to].
  induction (filter (fun x => is_OPEN (readyState x)) (clients st))
    as [|x l IH]; [reflexivity|].
  cbn. destruct (Nat.eqb c x); cbn; now rewrite IH.
Qed.

Lemma recipients_after_add (c ws : WebSocket) (l : list WebSocket) :
  c <> ws ->
  filter (Nat.eqb c) (filter (fun x => is_OPEN (readyState x)) (set_add ws l))
  = filter (Nat.eqb c) (filter (fun x => is_OPEN (readyState x)) l).
Proof.
  intros Hne. unfold set_add. destruct (existsb (Nat.eqb ws) l); [reflexivity|].
  rewrite !filter_app. cbn.
  destruct (is_OPEN (readyState ws)); cbn; [|now rewrite app_nil_r].
  destruct (Nat.eqb_spec c ws); [contradiction|]. now rewrite app_nil_r.
Qed.

Lemma recipients_after_delete (c ws : WebSocket) (l : list WebSocket) :
  filter (Nat.eqb c) (filter (fun x => is_OPEN (readyState x)) (set_delete ws l))
  = if Nat.eqb c ws then []
    else filter (Nat.eqb c) (filter (fun x => is_OPEN (readyState x)) l).
Proof.
  unfold set_delete. induction l as [|x l IH].
  - cbn. now destruct (Nat.eqb c ws).
  - cbn [filter]. destruct (Nat.eqb_spec ws x) as [->|Hne]; cbn [negb filter].
    + rewrite IH. destruct (Nat.eqb_spec c x) as [->|Hcx]; [reflexivity|].
      destruct (is_OPEN (readyState x)); cbn [filter]; [|reflexivity].
      destruct (Nat.eqb_spec c x); [contradiction|reflexivity].
    + destruct (is_OPEN (readyState x)); cbn [filter]; [|exact IH].
      destruct (Nat.eqb_spec c x) as [->|Hcx].
      * destruct (Nat.eqb_spec x ws) as [->|_]; [contradiction|].
        rewrite IH. destruct (Nat.eqb_spec x ws); [congruence|reflexivity].
      * exact IH.
Qed.

End Registry.

(** X1. No peer is ever registered twice: whatever handlers run on a server
    (connections, peer messages, closes, errors, adapter callbacks, start,
    stop) and in whatever order, a peer set without repetitions stays
    without repetitions, and a new server's set has none. *)
Theorem X1_registry_never_repeats
        (lib : WhatsAppClient.Baileys)
        (hs : list ((BridgeServer.WebSocket -> BridgeServer.ReadyState)
                    * Wiring.Handler))
        (st : BridgeServer.t) :
  NoDup (BridgeServer.clients st) ->
  NoDup (BridgeServer.clients (fst (Wiring.serve lib hs st)))
  /\ NoDup (BridgeServer.clients (fst (Wiring.serve lib hs BridgeServer.new))).
Proof.
  intros H. split; [now apply serve_nodup|].
  apply serve_nodup. constructor.
Qed.

(** X1, at a peer that connects twice and another that connects and leaves. *)
Lemma X1_registry_never_repeats_witness :
  NoDup (BridgeServer.clients
           (fst (Wiring.serve (fun _ _ _ => None)
                   [(fun _ => BridgeServer.OPEN, Wiring.On_connection 1);
                    (fun _ => BridgeServer.OPEN, Wiring.On_connection 2);
                    (fun _ => BridgeServer.OPEN, Wiring.On_connection 1);
                    (fun _ => BridgeServer.OPEN, Wiring.On_close 2)]%list
                   (BridgeServer.mk (Some 3001%Z) None [5]%list)))).
Proof.
  refine (proj1 (X1_registry_never_repeats (fun _ _ _ => None)
    [(fun _ => BridgeServer.OPEN, Wiring.On_connection 1);
     (fun _ => BridgeServer.OPEN, Wiring.On_connection 2);
     (fun _ => BridgeServer.OPEN, Wiring.On_connection 1);
     (fun _ => BridgeServer.OPEN, Wiring.On_close 2)]%list
    (BridgeServer.mk (Some 3001%Z) None [5]%list) _)).
  repeat constructor. intros [].
Defined.

(** X2. A peer that connects is sent nothing at that moment (no replay).
    From then on, while its socket is open, each broadcast sends it the
    event once; what other peers are sent is unchanged. Registering a peer
    that is already registered changes nothing. *)
Theorem X2_joined_peer_gets_later_events
        (readyState : BridgeServer.WebSocket -> BridgeServer.ReadyState)
        (ws : BridgeServer.WebSocket) (st : BridgeServer.t) (msg : JS.Value) :
  NoDup (BridgeServer.clients st) ->
  readyState ws = BridgeServer.OPEN ->
  let joined := BridgeServer.wss_on_connection ws st in
  Wiring.effects_of joined = []%list
  /\ filter (BridgeServer.is_send_to ws)
       (Wiring.effects_of
          (BridgeServer.broadcast readyState msg (Wiring.fields_after joined)))
     = [BridgeServer.ws_send ws (JS.JSON_stringify msg)]%list
  /\ (forall c, c <> ws ->
        filter (BridgeServer.is_send_to c)
          (Wiring.effects_of
             (BridgeServer.broadcast readyState msg (Wiring.fields_after joined)))
        = filter (BridgeServer.is_send_to c)
            (Wiring.effects_of (BridgeServer.broadcast readyState msg st)))
  /\ BridgeServer.wss_on_connection ws (Wiring.fields_after joined)
     = (inr tt, Wiring.fields_after joined, []%list).
Proof.
  intros Hnd Hopen joined. subst joined. split; [reflexivity|].
  split; [|split].
  - apply broadcast_to_open; [|apply set_add_in; now left|exact Hopen].
    now apply set_add_nodup.
  - intros c Hne. rewrite !broadcast_filter. cbn.
    now rewrite recipients_after_add.
  - cbn. unfold BridgeServer.set_add at 1 3.
    assert (H : existsb (Nat.eqb ws)
                  (BridgeServer.set_add ws (BridgeServer.clients st)) = true).
    { apply existsb_exists. exists ws.
      split; [apply set_add_in; now left|apply Nat.eqb_refl]. }
    rewrite H. reflexivity.
Qed.

(** X2, with a second peer that joins a server with one peer. *)
Lemma X2_joined_peer_gets_later_events_witness :
  filter (BridgeServer.is_send_to 2)
    (Wiring.effects_of
       (BridgeServer.broadcast (fun _ => BridgeServer.OPEN)
          (JS.VObj [("type", JS.VStr "qr"); ("qr", JS.VStr "qr-1")]%list)
          (Wiring.fields_after
             (BridgeServer.wss_on_connection 2
                (BridgeServer.mk (Some 3001%Z) None [1]%list)))))
  = [BridgeServer.ws_send 2
       (JS.JSON_stringify
          (JS.VObj [("type", JS.VStr "qr"); ("qr", JS.VStr "qr-1")]%list))]%list.
Proof.
  refine (proj1 (proj2 (X2_joined_peer_gets_later_events
    (fun _ => BridgeServer.OPEN) 2
    (BridgeServer.mk (Some 3001%Z) None [1]%list)
    (JS.VObj [("type", JS.VStr "qr"); ("qr", JS.VStr "qr-1")]%list)
    _ eq_refl))).
  repeat constructor. intros [].
Defined.

(** X3. A peer whose socket closed or failed is sent no later broadcast,
    whatever state its socket reports; what other peers are sent is
    unchanged, and the listener and the adapter are not touched. The [error]
    handler does what the [close] handler does. *)
Theorem X3_departed_peer_gets_nothing
        (readyState : BridgeServer.WebSocket -> BridgeServer.ReadyState)
        (ws : BridgeServer.WebSocket) (st : BridgeServer.t) (msg : JS.Value) :
  let left := BridgeServer.ws_on_close ws st in
  Wiring.effects_of left = []%list
  /\ BridgeServer.wss (Wiring.fields_after left) = BridgeServer.wss st
  /\ BridgeServer.wa (Wiring.fields_after left) = BridgeServer.wa st
  /\ filter (BridgeServer.is_send_to ws)
       (Wiring.effects_of
          (BridgeServer.broadcast readyState msg (Wiring.fields_after left)))
     = []%list
  /\ (forall c, c <> ws ->
        filter (BridgeServer.is_send_to c)
          (Wiring.effects_of
             (BridgeServer.broadcast readyState msg (Wiring.fields_after left)))
        = filter (BridgeServer.is_send_to c)
            (Wiring.effects_of (BridgeServer.broadcast readyState msg st)))
  /\ BridgeServer.ws_on_error ws st = left.
Proof.
  intros left. subst left. repeat (split; [reflexivity|]). split; [|split].
  - rewrite broadcast_filter. cbn.
    now rewrite recipients_after_delete, Nat.eqb_refl.
  - intros c Hne. rewrite !broadcast_filter. cbn.
    rewrite recipients_after_delete.
    destruct (Nat.eqb_spec c ws); [contradiction|reflexivity].
  - reflexivity.
Qed.

(** X3, with the first of two open peers leaving. *)
Lemma X3_departed_peer_gets_nothing_witness :
  filter (BridgeServer.is_send_to 1)
    (Wiring.effects_of
       (BridgeServer.broadcast (fun _ => BridgeServer.OPEN)
          (JS.VObj [("type", JS.VStr "status");
                    ("status", JS.VStr "connected")]%list)
          (Wiring.fields_after
             (BridgeServer.ws_on_close 1
                (BridgeServer.mk (Some 3001%Z) None [1; 2]%list)))))
  = []%list.
Proof.
  exact (proj1 (proj2 (proj2 (proj2
    (X3_departed_peer_gets_nothing (fun _ => BridgeServer.OPEN) 1
       (BridgeServer.mk (Some 3001%Z) None [1; 2]%list)
       (JS.VObj [("type", JS.VStr "status");
                 ("status", JS.VStr "connected")]%list)))))).
Defined.

Section Delivery.

Import BridgeServer Wiring.
Local Open Scope list_scope.

Variable readyState : WebSocket -> ReadyState.

Lemma relay_cons (e : WhatsAppClient.Effect)
      (effs : list WhatsAppClient.Effect) (st : t) :
  relay readyState (e :: effs) st
  = match envelope e with
    | Some v =>
        match relay readyState effs st with
        | (r, st', tr) =>
            (r, st', effects_of (broadcast readyState v st) ++ tr)
        end
    | None => relay readyState effs st
    end.
Proof.
  unfold relay. cbn [for_of]. unfold bind at 1.
  rewrite callback_broadcasts.
  destruct (envelope e) as [v|].
  - rewrite broadcast_trace. reflexivity.
  - destruct (for_of effs (callback readyState) st) as [[r st'] tr].
    reflexivity.
Qed.

Lemma relay_runs (effs : list WhatsAppClient.Effect) (st : t) :
  exists tr, relay readyState effs st = (inr tt, st, tr).
Proof.
  induction effs as [|e effs [tr IH]]; [now exists []|].
  rewrite relay_cons, IH. destruct (envelope e); eexists; reflexivity.
Qed.

Lemma relay_sends (c : WebSocket) (effs : list WhatsAppClient.Effect) (st : t) :
  filter (is_send_to c) (effects_of (relay readyState effs st))
  = flat_map (fun v => filter (is_send_to c)
                              (effects_of (broadcast readyState v st)))
             (envelopes effs).
Proof.
  induction effs as [|e effs IH]; [reflexivity|].
  rewrite relay_cons. unfold envelopes. cbn [flat_map].
  destruct (envelope e) as [v|]; [|exact IH].
  destruct (relay readyState effs st) as [[r st'] tr].
  unfold effects_of in *. cbn [snd app flat_map] in *.
  rewrite filter_app, IH. reflexivity.
Qed.

Lemma relay_stringifies (effs : list WhatsAppClient.Effect) (st : t) :
  filter is_stringify (effects_of (relay readyState effs st))
  = map stringify (envelopes effs).
Proof.
  induction effs as [|e effs IH]; [reflexivity|].
  rewrite relay_cons. unfold envelopes. cbn [flat_map].
  destruct (envelope e) as [v|]; [|exact IH].
  destruct (relay readyState effs st) as [[r st'] tr].
  rewrite broadcast_trace.
  unfold effects_of in *. cbn [snd app map filter is_stringify] in *.
  rewrite filter_app, IH. f_equal.
  assert (H : forall d l,
             filter is_stringify (map (fun x => ws_send x d) l) = []).
  { intros d l. induction l as [|x l IHl]; [reflexivity|exact IHl]. }
  now rewrite H.
Qed.

End Delivery.

(** X4. The callbacks of the adapter reach a peer in full and in order:
    while a peer is registered and its socket open, what it is sent is
    exactly one text per message, QR and status callback, in the order of
    the callbacks, each event having been serialized once; the adapter's
    other doings (timers, socket calls) send nothing. A peer that is not
    registered, or whose socket is not open, is sent none of them. *)
Theorem X4_callbacks_reach_peer_in_order
        (readyState : BridgeServer.WebSocket -> BridgeServer.ReadyState)
        (effs : list WhatsAppClient.Effect) (st : BridgeServer.t)
        (c : BridgeServer.WebSocket) :
  NoDup (BridgeServer.clients st) ->
  exists tr,
    Wiring.relay readyState effs st = (inr tt, st, tr)
    /\ filter BridgeServer.is_stringify tr
       = map BridgeServer.stringify (Wiring.envelopes effs)
    /\ (In c (BridgeServer.clients st) -> readyState c = BridgeServer.OPEN ->
        filter (BridgeServer.is_send_to c) tr
        = map (fun v => BridgeServer.ws_send c (JS.JSON_stringify v))
              (Wiring.envelopes effs))
    /\ (~ In c (BridgeServer.clients st) \/ readyState c <> BridgeServer.OPEN ->
        filter (BridgeServer.is_send_to c) tr = []%list).
Proof.
  intros Hnd. destruct (relay_runs readyState effs st) as [tr Hrun].
  exists tr. split; [exact Hrun|].
  pose proof (relay_stringifies readyState effs st) as Hs.
  pose proof (relay_sends readyState c effs st) as Hc.
  rewrite Hrun in Hs, Hc. cbn [Wiring.effects_of snd] in Hs, Hc.
  split; [exact Hs|]. split.
  - intros Hin Hopen. rewrite Hc. clear Hs Hc Hrun.
    induction (Wiring.envelopes effs) as [|v vs IH]; [reflexivity|].
    cbn [flat_map map].
    now rewrite (broadcast_to_open readyState c v st Hnd Hin Hopen), IH.
  - intros Hout. rewrite Hc. clear Hs Hc Hrun.
    induction (Wiring.envelopes effs) as [|v vs IH]; [reflexivity|].
    cbn [flat_map]. now rewrite (broadcast_to_other readyState c v st Hout), IH.
Qed.

(** X4, at the callbacks of three QR updates and an open update, seen by the
    open one of two peers. *)
Lemma X4_callbacks_reach_peer_in_order_witness :
  exists tr,
    Wiring.relay
      (fun c => if Nat.eqb c 2 then BridgeServer.CLOSED else BridgeServer.OPEN)
      [WhatsAppClient.onQR "qr-1"; WhatsAppClient.onQR "qr-2";
       WhatsAppClient.onQR "qr-3"; WhatsAppClient.onStatus "connected"]%list
      (BridgeServer.mk (Some 3001%Z) (Some (WhatsAppClient.mk (Some 0%nat) false))
                       [1; 2]%list)
    = (inr tt,
       BridgeServer.mk (Some 3001%Z) (Some (WhatsAppClient.mk (Some 0%nat) false))
                       [1; 2]%list,
       tr)
    /\ filter (BridgeServer.is_send_to 1) tr
       = map (fun v => BridgeServer.ws_send 1 (JS.JSON_stringify v))
           [JS.VObj [("type", JS.VStr "qr"); ("qr", JS.VStr "qr-1")];
            JS.VObj [("type", JS.VStr "qr"); ("qr", JS.VStr "qr-2")];
            JS.VObj [("type", JS.VStr "qr"); ("qr", JS.VStr "qr-3")];
            JS.VObj [("type", JS.VStr "status");
                     ("status", JS.VStr "connected")]]%list
    /\ filter (BridgeServer.is_send_to 2) tr = []%list.
Proof.
  destruct (X4_callbacks_reach_peer_in_order
    (fun c => if Nat.eqb c 2 then BridgeServer.CLOSED else BridgeServer.OPEN)
    [WhatsAppClient.onQR "qr-1"; WhatsAppClient.onQR "qr-2";
     WhatsAppClient.onQR "qr-3"; WhatsAppClient.onStatus "connected"]%list
    (BridgeServer.mk (Some 3001%Z) (Some (WhatsAppClient.mk (Some 0%nat) false))
                     [1; 2]%list) 1) as [tr [Hrun [_ [Hopen _]]]].
  - repeat constructor; cbn; intuition discriminate.
  - exists tr. split; [exact Hrun|]. split.
    + apply Hopen; [now left|reflexivity].
    + injection Hrun as <-. reflexivity.
Defined.

(** X14. Whatever a peer sends, be it a command, some other JSON or no JSON
    at all, the message handler returns without throwing, leaves the server's
    fields as they were, hands at most one message to the adapter's socket,
    and sends exactly one text, to the peer the message came from. *)
Theorem X14_any_message_one_reply
        (lib : WhatsAppClient.Baileys) (ws : BridgeServer.WebSocket)
        (data : JS.Wire) (st : BridgeServer.t) :
  exists tr reply,
    BridgeServer.ws_on_message lib ws data st = (inr tt, st, tr)
    /\ filter BridgeServer.is_send tr
       = [BridgeServer.ws_send ws (JS.JSON_stringify reply)]%list
    /\ (forall c, c <> ws -> filter (BridgeServer.is_send_to c) tr = []%list)
    /\ (List.length (filter Wiring.is_adapter_call tr) <= 1)%nat
    /\ forall e, In (BridgeServer.adapter e) tr ->
                 Journal.is_library_send e = true.
Proof.
  destruct (on_message_any lib ws data st) as [calls [reply [Hrun [Hlen Hcalls]]]].
  exists (map BridgeServer.adapter calls ++ BridgeServer.replies ws reply)%list,
         reply.
  split; [exact Hrun|]. split; [apply sends_of_forward|]. split; [|split].
  - intros c Hne. apply length_zero_iff_nil.
    now apply (sends_to_other ws c reply calls).
  - rewrite filter_app. cbn. rewrite app_nil_r.
    assert (H : filter Wiring.is_adapter_call (map BridgeServer.adapter calls)
                = map BridgeServer.adapter calls).
    { clear. induction calls as [|e l IH]; [reflexivity|].
      cbn. now rewrite IH. }
    rewrite H, length_map. exact Hlen.
  - intros e Hin. apply in_app_or in Hin as [Hin|Hin].
    + apply in_map_iff in Hin as [e' [He Hin]]. injection He as ->.
      now apply Hcalls.
    + destruct Hin as [H|[H|[]]]; discriminate H.
Qed.

(** X14, at a text that is not JSON, sent by the second of two peers. *)
Lemma X14_any_message_one_reply_witness :
  exists tr reply,
    BridgeServer.ws_on_message (fun _ _ _ => None) 2
      (JS.NotJson "Unexpected token h in JSON at position 0")
      (BridgeServer.mk (Some 3001%Z)
         (Some (WhatsAppClient.mk (Some 0%nat) false)) [1; 2]%list)
    = (inr tt,
       BridgeServer.mk (Some 3001%Z)
         (Some (WhatsAppClient.mk (Some 0%nat) false)) [1; 2]%list,
       tr)
    /\ filter BridgeServer.is_send tr
       = [BridgeServer.ws_send 2 (JS.JSON_stringify reply)]%list
    /\ filter (BridgeServer.is_send_to 1) tr = []%list.
Proof.
  destruct (X14_any_message_one_reply (fun _ _ _ => None) 2
    (JS.NotJson "Unexpected token h in JSON at position 0")
    (BridgeServer.mk (Some 3001%Z)
       (Some (WhatsAppClient.mk (Some 0%nat) false)) [1; 2]%list))
    as [tr [reply [Hrun [Hsend [Hother _]]]]].
  exists tr, reply. split; [exact Hrun|]. split; [exact Hsend|].
  apply Hother. discriminate.
Defined.

(** X15. [stop()] can be called again, or on a server that was never
    started: the second call does nothing at all. After [stop()] a broadcast
    reaches nobody, and a peer message that still arrives is acknowledged
    without anything being handed to the adapter. *)
Theorem X15_stop_is_final
        (readyState : BridgeServer.WebSocket -> BridgeServer.ReadyState)
        (lib : WhatsAppClient.Baileys) (st : BridgeServer.t) :
  let stopped := Wiring.fields_after (BridgeServer.stop st) in
  BridgeServer.stop stopped = (inr tt, stopped, []%list)
  /\ BridgeServer.stop BridgeServer.new = (inr tt, BridgeServer.new, []%list)
  /\ (forall msg,
        BridgeServer.broadcast readyState msg stopped
        = (inr tt, stopped, [BridgeServer.stringify msg]%list))
  /\ (forall ws cmd, cmd <> JS.VNull ->
        BridgeServer.ws_on_message lib ws (JS.Json cmd) stopped
        = (inr tt, stopped,
           BridgeServer.replies ws (BridgeServer.sent (BridgeServer.to_of cmd)))).
Proof.
  intros stopped. subst stopped. rewrite (stop_runs st).
  cbn [Wiring.fields_after fst snd].
  split; [reflexivity|]. split; [reflexivity|]. split.
  - intros msg. rewrite broadcast_trace. reflexivity.
  - intros ws cmd Hn. apply on_message_no_action; [exact Hn|now right].
Qed.

(** X15, at a send command that arrives after the server has stopped. *)
Lemma X15_stop_is_final_witness :
  BridgeServer.ws_on_message (fun _ _ _ => None) 1
    (JS.Json (JS.VObj [("type", JS.VStr "send"); ("to", JS.VStr "1234@x");
                       ("text", JS.VStr "hi")]%list))
    (Wiring.fields_after
       (BridgeServer.stop
          (BridgeServer.mk (Some 3001%Z)
             (Some (WhatsAppClient.mk (Some 0%nat) false)) [1]%list)))
  = (inr tt, BridgeServer.new,
     BridgeServer.replies 1 (BridgeServer.sent (Some (JS.VStr "1234@x")))).
Proof.
  refine (proj2 (proj2 (proj2 (X15_stop_is_final (fun _ => BridgeServer.OPEN)
    (fun _ _ _ => None)
    (BridgeServer.mk (Some 3001%Z)
       (Some (WhatsAppClient.mk (Some 0%nat) false)) [1]%list))))
    1%nat
    (JS.VObj [("type", JS.VStr "send"); ("to", JS.VStr "1234@x");
              ("text", JS.VStr "hi")]%list) _).
  discriminate.
Defined.

(** X16. [start()] opens the listener first and calls the adapter's
    [connect()] after it, on a newly made adapter, without touching the peer
    set. Until that call has made a socket, a [send] command from a peer is
    answered with the error "Error: Not connected" and nothing is handed to
    Baileys. *)
Theorem X16_send_during_startup
        (lib : WhatsAppClient.Baileys) (port : Z) (st : BridgeServer.t)
        (ws : BridgeServer.WebSocket) (cmd : JS.Value) :
  JS.strict_eq_str (BridgeServer.type_of cmd) "send" = true ->
  let started := Wiring.fields_after (BridgeServer.start port st) in
  BridgeServer.start port st
  = (inr tt,
     BridgeServer.mk (Some port) (Some WhatsAppClient.new) (BridgeServer.clients st),
     [BridgeServer.wss_open port;
      BridgeServer.adapter WhatsAppClient.connect_called]%list)
  /\ BridgeServer.ws_on_message lib ws (JS.Json cmd) started
     = (inr tt, started,
        BridgeServer.replies ws (BridgeServer.error "Error: Not connected")).
Proof.
  intros Hty started. subst started. split; [reflexivity|].
  change (Wiring.fields_after (BridgeServer.start port st))
    with (BridgeServer.mk (Some port) (Some WhatsAppClient.new)
                          (BridgeServer.clients st)).
  rewrite (on_message_forwarded lib ws cmd
             (BridgeServer.mk (Some port) (Some WhatsAppClient.new)
                              (BridgeServer.clients st))
             WhatsAppClient.new Hty eq_refl).
  reflexivity.
Qed.

(** X16, at the start of a new server on port 3001 and a send command that
    arrives right after it. *)
Lemma X16_send_during_startup_witness :
  BridgeServer.start 3001 BridgeServer.new
  = (inr tt,
     BridgeServer.mk (Some 3001%Z) (Some WhatsAppClient.new) []%list,
     [BridgeServer.wss_open 3001%Z;
      BridgeServer.adapter WhatsAppClient.connect_called]%list)
  /\ BridgeServer.ws_on_message (fun _ _ _ => None) 1
       (JS.Json (JS.VObj [("type", JS.VStr "send"); ("to", JS.VStr "1234@x");
                          ("text", JS.VStr "hi")]%list))
       (Wiring.fields_after (BridgeServer.start 3001 BridgeServer.new))
     = (inr tt, Wiring.fields_after (BridgeServer.start 3001 BridgeServer.new),
        BridgeServer.replies 1 (BridgeServer.error "Error: Not connected")).
Proof.
  exact (X16_send_during_startup (fun _ _ _ => None) 3001
    BridgeServer.new 1
    (JS.VObj [("type", JS.VStr "send"); ("to", JS.VStr "1234@x");
              ("text", JS.VStr "hi")]%list)
    eq_refl).
Defined.

Section EndToEnd.

Import BridgeServer Wiring.
Local Open Scope list_scope.

Variable readyState : WebSocket -> ReadyState.

(** What a registered, open peer is sent for a list of callbacks. *)
Lemma relay_to_open (c : WebSocket) (effs : list WhatsAppClient.Effect) (st : t) :
  NoDup (clients st) -> In c (clients st) -> readyState c = OPEN ->
  filter (is_send_to c) (effects_of (relay readyState effs st))
  = map (fun v => ws_send c (JS.JSON_stringify v)) (envelopes effs).
Proof.
  intros Hnd Hin Hopen. rewrite relay_sends.
  induction (envelopes effs) as [|v vs IH]; [reflexivity|].
  cbn [flat_map map].
  now rewrite (broadcast_to_open readyState c v st Hnd Hin Hopen), IH.
Qed.

Lemma envelopes_of_update (loggedOut : Z) (this : WhatsAppClient.t)
      (u : WhatsAppClient.ConnectionUpdate) :
  envelopes (snd (WhatsAppClient.connection_update loggedOut this u))
  = envelopes (Journal.reports u).
Proof.
  unfold WhatsAppClient.connection_update, Journal.reports, envelopes.
  destruct (WhatsAppClient.is_connection u "close");
    [destruct (WhatsAppClient.shouldReconnect loggedOut
                 (WhatsAppClient.statusCode u)
               && negb (WhatsAppClient.reconnecting this))%bool|
     destruct (WhatsAppClient.is_connection u "open")];
    cbn [snd]; rewrite ?flat_map_app; cbn; rewrite ?app_nil_r; reflexivity.
Qed.

Lemma envelopes_of_messages (l : list InboundMessage) :
  envelopes (map WhatsAppClient.onMessage l) = map message_envelope l.
Proof.
  induction l as [|m l IH]; [reflexivity|].
  unfold envelopes in *. cbn. now rewrite IH.
Qed.

End EndToEnd.

(** X17. From the chat network to a peer: for a peer that is registered with
    an open socket, a connection update arrives as its QR challenge (if it
    carries one) followed by its status (for a close or an open), whatever
    the reconnect guard says, and a batch of messages arrives as one
    [message] object for each message the adapter lets through, in the order
    of the batch. *)
Theorem X17_events_end_to_end
        (readyState : BridgeServer.WebSocket -> BridgeServer.ReadyState)
        (st : BridgeServer.t) (c : BridgeServer.WebSocket) :
  NoDup (BridgeServer.clients st) ->
  In c (BridgeServer.clients st) ->
  readyState c = BridgeServer.OPEN ->
  (forall loggedOut this u,
     filter (BridgeServer.is_send_to c)
       (Wiring.effects_of
          (Wiring.relay readyState
             (snd (WhatsAppClient.connection_update loggedOut this u)) st))
     = map (fun v => BridgeServer.ws_send c (JS.JSON_stringify v))
           (Wiring.envelopes (Journal.reports u)))
  /\ (forall messages type,
        filter (BridgeServer.is_send_to c)
          (Wiring.effects_of
             (Wiring.relay readyState
                (map WhatsAppClient.onMessage (messages_upsert messages type)) st))
        = map (fun m => BridgeServer.ws_send c
                          (JS.JSON_stringify (BridgeServer.message_envelope m)))
              (messages_upsert messages type)).
Proof.
  intros Hnd Hin Hopen. split.
  - intros loggedOut this u.
    rewrite (relay_to_open readyState c _ st Hnd Hin Hopen).
    now rewrite envelopes_of_update.
  - intros messages type.
    rewrite (relay_to_open readyState c _ st Hnd Hin Hopen).
    now rewrite envelopes_of_messages, map_map.
Qed.

(** X17, at a connection loss seen by a peer, and at a batch of a text and
    a status broadcast. *)
Lemma X17_events_end_to_end_witness :
  filter (BridgeServer.is_send_to 1)
    (Wiring.effects_of
       (Wiring.relay (fun _ => BridgeServer.OPEN)
          (snd (WhatsAppClient.connection_update 401
                  (WhatsAppClient.mk (Some 0%nat) false)
                  (WhatsAppClient.mkUpdate (Some "close") (Some 500%Z) None)))
          (BridgeServer.mk (Some 3001%Z)
             (Some (WhatsAppClient.mk (Some 0%nat) false)) [1]%list)))
  = [BridgeServer.ws_send 1
       (JS.JSON_stringify
          (JS.VObj [("type", JS.VStr "status");
                    ("status", JS.VStr "disconnected")]%list))]%list
  /\ filter (BridgeServer.is_send_to 1)
       (Wiring.effects_of
          (Wiring.relay (fun _ => BridgeServer.OPEN)
             (map WhatsAppClient.onMessage
                (messages_upsert
                   [mkWAMessage
                      (mkKey (Some "1234@s.whatsapp.net") None (Some "E1") None)
                      (Some (mkMessage (Some "hello") None None None None None))
                      1700000006;
                    mkWAMessage
                      (mkKey (Some "status@broadcast") None (Some "E2") None)
                      (Some (mkMessage (Some "story") None None None None None))
                      1700000007]%list
                   "notify"))
             (BridgeServer.mk (Some 3001%Z)
                (Some (WhatsAppClient.mk (Some 0%nat) false)) [1]%list)))
     = [BridgeServer.ws_send 1
          (JS.JSON_stringify
             (BridgeServer.message_envelope
                (mkInbound "E1" "1234@s.whatsapp.net" "" "hello"
                           1700000006 false)))]%list.
Proof.
  destruct (X17_events_end_to_end (fun _ => BridgeServer.OPEN)
    (BridgeServer.mk (Some 3001%Z)
       (Some (WhatsAppClient.mk (Some 0%nat) false)) [1]%list) 1)
    as [Hupdate Hbatch].
  - repeat constructor. intros [].
  - now left.
  - reflexivity.
  - split.
    + exact (Hupdate 401%Z (WhatsAppClient.mk (Some 0%nat) false)
               (WhatsAppClient.mkUpdate (Some "close") (Some 500%Z) None)).
    + exact (Hbatch
        [mkWAMessage
           (mkKey (Some "1234@s.whatsapp.net") None (Some "E1") None)
           (Some (mkMessage (Some "hello") None None None None None))
           1700000006;
         mkWAMessage
           (mkKey (Some "status@broadcast") None (Some "E2") None)
           (Some (mkMessage (Some "story") None None None None None))
           1700000007]%list
        "notify").
Defined.
